(** * Trace-then-replay execution of guest scripts: a shallow embedding

    The repository holds two near-identical services, [src/main.py] and
    [python-fastapi/src/main.py].  Each evaluates a guest script once in a
    tracing context, performs the HTTP requests the script asked for, and
    evaluates the script again in a context that answers the same calls from
    a table keyed by a JSON encoding of the call.

    The development follows the Python text function by function.  The two
    collaborators that are not part of the repository are parameters: the
    script engine (what a source text does, as a resumption over the
    interception function) and the HTTP transport. *)

From Stdlib Require Import ZArith String Ascii.
From stdpp Require Import base strings list gmap sorting pretty.

(* ===================================================================== *)
(** ** Characters that the encoders treat specially *)
(* ===================================================================== *)

Definition DQUOTE : ascii := "034"%char.
Definition BACKSLASH : ascii := "092"%char.
Definition BACKTICK : ascii := "096"%char.
Definition DOLLAR : ascii := "036"%char.
Definition CH_BS : ascii := "008"%char.
Definition CH_TAB : ascii := "009"%char.
Definition CH_LF : ascii := "010"%char.
Definition CH_VT : ascii := "011"%char.
Definition CH_FF : ascii := "012"%char.
Definition CH_CR : ascii := "013"%char.
Definition CH_NUL : ascii := "000"%char.

Definition str1 (c : ascii) : string := String c EmptyString.

(** Strings are sequences of code points below 256. *)
Definition code_point (c : ascii) : N := N_of_ascii c.

Definition hex_digit (n : N) : ascii :=
  match n with
  | 0 => "0" | 1 => "1" | 2 => "2" | 3 => "3" | 4 => "4" | 5 => "5"
  | 6 => "6" | 7 => "7" | 8 => "8" | 9 => "9" | 10 => "a" | 11 => "b"
  | 12 => "c" | 13 => "d" | 14 => "e" | _ => "f"
  end%N%char.

(** [\u00xx], what both Python's ['\\u{0:04x}'.format] and ECMAScript's
    UnicodeEscape print for a code point below 256. *)
Definition unicode_escape (c : ascii) : string :=
  String BACKSLASH
    (String "u" (String "0" (String "0"
       (String (hex_digit (code_point c / 16)) (str1 (hex_digit (code_point c mod 16))))))).

Definition short_escape (c : ascii) : string := String BACKSLASH (str1 c).

Fixpoint join (sep : string) (parts : list string) : string :=
  match parts with
  | [] => EmptyString
  | [p] => p
  | p :: rest => p +:+ sep +:+ join sep rest
  end.

(* ===================================================================== *)
(** ** Values on the Python side and on the JavaScript side *)
(* ===================================================================== *)

(** What [json.loads] builds and [json.dumps] prints: [None], [bool], [int],
    [str], [list], [dict].  A [dict] keeps insertion order, which
    [json.dumps] follows unless [sort_keys] is set.  Numbers are integers. *)
Unset Elimination Schemes.
Inductive json : Type :=
| JNull
| JBool (b : bool)
| JNum (n : Z)
| JStr (s : string)
| JArr (xs : list json)
| JObj (kvs : list (string * json)).

(** What a guest script can pass to the interception function.  An object is
    the list of its own enumerable properties in enumeration order.
    [JSFunction] stands for the callables and symbols, which are truthy and
    which [JSON.stringify] drops. *)
Inductive jsval : Type :=
| JSUndefined
| JSNull
| JSBool (b : bool)
| JSNum (n : Z)
| JSStr (s : string)
| JSFunction
| JSArr (xs : list jsval)
| JSObj (props : list (string * jsval)).
Set Elimination Schemes.

Section nested_induction.
Variable P : json → Prop.
Hypothesis Hnull : P JNull.
Hypothesis Hbool : ∀ b, P (JBool b).
Hypothesis Hnum : ∀ n, P (JNum n).
Hypothesis Hstr : ∀ s, P (JStr s).
Hypothesis Harr : ∀ xs, Forall P xs → P (JArr xs).
Hypothesis Hobj : ∀ kvs, Forall (λ kv, P kv.2) kvs → P (JObj kvs).

Fixpoint json_ind (v : json) : P v :=
  match v with
  | JNull => Hnull
  | JBool b => Hbool b
  | JNum n => Hnum n
  | JStr s => Hstr s
  | JArr xs =>
      Harr xs ((fix go (l : list json) : Forall P l :=
                  match l with
                  | [] => Forall_nil_2 _
                  | x :: l' => Forall_cons_2 _ _ _ (json_ind x) (go l')
                  end) xs)
  | JObj kvs =>
      Hobj kvs ((fix go (l : list (string * json)) : Forall (λ kv, P kv.2) l :=
                   match l with
                   | [] => Forall_nil_2 _
                   | kv :: l' => Forall_cons_2 _ _ _ (json_ind kv.2) (go l')
                   end) kvs)
  end.
End nested_induction.

Section nested_induction_js.
Variable P : jsval → Prop.
Hypothesis Hundef : P JSUndefined.
Hypothesis Hnull : P JSNull.
Hypothesis Hbool : ∀ b, P (JSBool b).
Hypothesis Hnum : ∀ n, P (JSNum n).
Hypothesis Hstr : ∀ s, P (JSStr s).
Hypothesis Hfun : P JSFunction.
Hypothesis Harr : ∀ xs, Forall P xs → P (JSArr xs).
Hypothesis Hobj : ∀ props, Forall (λ kv, P kv.2) props → P (JSObj props).

Fixpoint jsval_ind (v : jsval) : P v :=
  match v with
  | JSUndefined => Hundef
  | JSNull => Hnull
  | JSBool b => Hbool b
  | JSNum n => Hnum n
  | JSStr s => Hstr s
  | JSFunction => Hfun
  | JSArr xs =>
      Harr xs ((fix go (l : list jsval) : Forall P l :=
                  match l with
                  | [] => Forall_nil_2 _
                  | x :: l' => Forall_cons_2 _ _ _ (jsval_ind x) (go l')
                  end) xs)
  | JSObj props =>
      Hobj props ((fix go (l : list (string * jsval)) : Forall (λ kv, P kv.2) l :=
                     match l with
                     | [] => Forall_nil_2 _
                     | kv :: l' => Forall_cons_2 _ _ _ (jsval_ind kv.2) (go l')
                     end) props)
  end.
End nested_induction_js.

(* ===================================================================== *)
(** ** [json.dumps] (Python) *)
(* ===================================================================== *)

(** [json.encoder.py_encode_basestring_ascii], the default ([ensure_ascii])
    string encoder: the quote and the backslash get a backslash, the five
    control characters of [ESCAPE_DCT] their letter, and everything outside
    [' '..'~'] a [\uXXXX]. *)
Definition py_escape_char (c : ascii) : string :=
  if decide (c = DQUOTE) then short_escape DQUOTE
  else if decide (c = BACKSLASH) then short_escape BACKSLASH
  else if decide (c = CH_LF) then short_escape "n"
  else if decide (c = CH_CR) then short_escape "r"
  else if decide (c = CH_TAB) then short_escape "t"
  else if decide (c = CH_BS) then short_escape "b"
  else if decide (c = CH_FF) then short_escape "f"
  else if ((code_point c <? 32) || (126 <? code_point c))%N then unicode_escape c
  else str1 c.

Fixpoint escape_with (esc : ascii → string) (s : string) : string :=
  match s with
  | EmptyString => EmptyString
  | String c rest => esc c +:+ escape_with esc rest
  end.

Definition py_encode_basestring_ascii (s : string) : string :=
  str1 DQUOTE +:+ escape_with py_escape_char s +:+ str1 DQUOTE.

(** [sorted(dct.items())]: by key, the order on [str] being the
    lexicographic order on code points. *)
Definition key_le {A} (a b : string * A) : Prop := String.le a.1 b.1.

Global Instance key_le_dec {A} : RelDecision (@key_le A).
Proof. intros a b. unfold key_le. apply _. Defined.

Definition sorted_items {A} (items : list (string * A)) : list (string * A) :=
  merge_sort key_le items.

Section dumps.
(** The keyword arguments of [json.dumps] that the services set. *)
Variable sort_keys : bool.
Variables item_separator key_separator : string.

Definition dumps_item (kv : string * string) : string :=
  py_encode_basestring_ascii kv.1 +:+ key_separator +:+ kv.2.

(** The items are rendered first and ordered afterwards; the order looks at
    the keys only, so this prints what [_iterencode_dict] prints. *)
Fixpoint json_dumps_with (v : json) : string :=
  match v with
  | JNull => "null"
  | JBool true => "true"
  | JBool false => "false"
  | JNum n => pretty n
  | JStr s => py_encode_basestring_ascii s
  | JArr xs =>
      "[" +:+ join item_separator (map json_dumps_with xs) +:+ "]"
  | JObj kvs =>
      let rendered := map (λ kv, (kv.1, json_dumps_with kv.2)) kvs in
      let items := if sort_keys then sorted_items rendered else rendered in
      "{" +:+ join item_separator (map dumps_item items) +:+ "}"
  end.
End dumps.

(** [json.dumps(obj)]: separators [(', ', ': ')], insertion order. *)
Definition json_dumps : json → string := json_dumps_with false ", " ": ".

(** [json.dumps(obj, sort_keys=True, separators=(',', ':'))]. *)
Definition json_dumps_sorted_compact : json → string :=
  json_dumps_with true "," ":".

(* ===================================================================== *)
(** ** [JSON.stringify] (JavaScript) *)
(* ===================================================================== *)

(** QuoteJSONString: the quote, the backslash and the control characters
    only; every other code unit is copied. *)
Definition js_escape_char (c : ascii) : string :=
  if decide (c = DQUOTE) then short_escape DQUOTE
  else if decide (c = BACKSLASH) then short_escape BACKSLASH
  else if decide (c = CH_BS) then short_escape "b"
  else if decide (c = CH_TAB) then short_escape "t"
  else if decide (c = CH_LF) then short_escape "n"
  else if decide (c = CH_FF) then short_escape "f"
  else if decide (c = CH_CR) then short_escape "r"
  else if (code_point c <? 32)%N then unicode_escape c
  else str1 c.

Definition QuoteJSONString (s : string) : string :=
  str1 DQUOTE +:+ escape_with js_escape_char s +:+ str1 DQUOTE.

Definition stringify_property (kv : string * option string) : option string :=
  match kv.2 with
  | Some text => Some (QuoteJSONString kv.1 +:+ ":" +:+ text)
  | None => None
  end.

(** SerializeJSONProperty: [None] is the [undefined] that [JSON.stringify]
    returns for [undefined] and for callables.  Such a value is skipped as a
    property and printed [null] as an array element.  A number is an integer
    that prints as its decimal digits (below 10^21 in size). *)
Fixpoint JSON_stringify (v : jsval) : option string :=
  match v with
  | JSUndefined => None
  | JSFunction => None
  | JSNull => Some "null"
  | JSBool true => Some "true"
  | JSBool false => Some "false"
  | JSNum n => Some (pretty n)
  | JSStr s => Some (QuoteJSONString s)
  | JSArr xs =>
      Some ("[" +:+ join "," (map (λ x, default "null" (JSON_stringify x)) xs) +:+ "]")
  | JSObj props =>
      Some ("{" +:+ join "," (omap stringify_property
                               (map (λ kv, (kv.1, JSON_stringify kv.2)) props)) +:+ "}")
  end.

(** Writing expected texts: a single quote stands for the double quote. *)
Definition dq_char (c : ascii) : ascii := if decide (c = "'"%char) then DQUOTE else c.
Fixpoint dq (s : string) : string :=
  match s with
  | EmptyString => EmptyString
  | String c rest => String (dq_char c) (dq rest)
  end.

(* ===================================================================== *)
(** ** Moving values between the two sides as JSON text *)
(* ===================================================================== *)

(** [json.loads(JSON.stringify(v))], read off the value instead of the
    text: [None] where [JSON.stringify] returns [undefined]. *)
Fixpoint js_to_json (v : jsval) : option json :=
  match v with
  | JSUndefined => None
  | JSFunction => None
  | JSNull => Some JNull
  | JSBool b => Some (JBool b)
  | JSNum n => Some (JNum n)
  | JSStr s => Some (JStr s)
  | JSArr xs => Some (JArr (map (λ x, default JNull (js_to_json x)) xs))
  | JSObj props =>
      Some (JObj (omap (λ kv : string * option json, pair kv.1 <$> kv.2)
                       (map (λ kv, (kv.1, js_to_json kv.2)) props)))
  end.

(** The value of the literal that [json.dumps] prints, as the engine reads it
    in ["var x = " + json.dumps(v)]. *)
Fixpoint json_to_js (v : json) : jsval :=
  match v with
  | JNull => JSNull
  | JBool b => JSBool b
  | JNum n => JSNum n
  | JStr s => JSStr s
  | JArr xs => JSArr (map json_to_js xs)
  | JObj kvs => JSObj (map (λ kv, (kv.1, json_to_js kv.2)) kvs)
  end.

(** ToBoolean, for [options || {}]. *)
Definition js_truthy (v : jsval) : bool :=
  match v with
  | JSUndefined | JSNull | JSBool false => false
  | JSNum n => negb (n =? 0)%Z
  | JSStr s => negb (String.eqb s EmptyString)
  | _ => true
  end.

Definition js_or (a b : jsval) : jsval := if js_truthy a then a else b.

(* ===================================================================== *)
(** ** Python exceptions and the few dict operations the services use *)
(* ===================================================================== *)

Inductive exn : Type :=
| HTTPException (status_code : Z) (detail : json)
| Exception (message : string).

Inductive outcome (A : Type) : Type :=
| Ok (a : A)
| Raised (e : exn).
Arguments Ok {A} a.
Arguments Raised {A} e.

(** [str(e)].  For an [HTTPException] Starlette prints the status and the
    detail; no handler below ever receives one. *)
Definition str_exn (e : exn) : string :=
  match e with
  | Exception message => message
  | HTTPException status_code detail =>
      pretty status_code +:+ ": " +:+
      match detail with JStr s => s | _ => json_dumps detail end
  end.

Fixpoint assoc {A} (k : string) (kvs : list (string * A)) : option A :=
  match kvs with
  | [] => None
  | (k', v) :: rest => if decide (k' = k) then Some v else assoc k rest
  end.

Definition type_name (v : json) : string :=
  match v with
  | JNull => "NoneType" | JBool _ => "bool" | JNum _ => "int"
  | JStr _ => "str" | JArr _ => "list" | JObj _ => "dict"
  end.

(** [d[k]] *)
Definition py_getitem (d : json) (k : string) : outcome json :=
  match d with
  | JObj kvs =>
      match assoc k kvs with
      | Some v => Ok v
      | None => Raised (Exception ("'" +:+ k +:+ "'"))
      end
  | _ => Raised (Exception ("'" +:+ type_name d +:+ "' object is not subscriptable"))
  end.

(** [d.get(k, dflt)]; only a [dict] has the method. *)
Definition py_get (d : json) (k : string) (dflt : json) : outcome json :=
  match d with
  | JObj kvs => Ok (default dflt (assoc k kvs))
  | _ => Raised (Exception ("'" +:+ type_name d +:+ "' object has no attribute 'get'"))
  end.

(* ===================================================================== *)
(** ** The world: what the host did to its collaborators, in order *)
(* ===================================================================== *)

(** The arguments of [app.state.http_client.request]. *)
Record TransportRequest : Type := {
  rq_method : json;
  rq_url : json;
  rq_headers : json;
  rq_content : json
}.

(** The parts of an [httpx.Response] that [perform_fetch] reads;
    [resp_json] is [None] where [response.json()] raises. *)
Record Response : Type := {
  status_code : Z;
  reason_phrase : string;
  resp_headers : list (string * string);
  resp_text : string;
  resp_json : option json
}.

Inductive TransportOutcome : Type :=
| TransportRaised (message : string)
| TransportResponse (r : Response).

Inductive Event : Type :=
| EvContext                         (* [MiniRacer()] *)
| EvGuest (src : string)            (* the engine ran this guest source *)
| EvRequest (rq : TransportRequest) (* the transport was called *).

Definition World : Type := list Event.

(** The transport may answer from what happened before. *)
Definition Transport : Type := World → TransportRequest → TransportOutcome.

Definition is_request (e : Event) : bool :=
  match e with EvRequest _ => true | _ => false end.

(** A coroutine or a host step: it may raise and it extends the world. *)
Definition M (A : Type) : Type := World → outcome A * World.

Definition raise {A} (e : exn) : M A := λ w, (Raised e, w).
Definition lift {A} (r : outcome A) : M A := λ w, (r, w).
Definition emit (e : Event) : M unit := λ w, (Ok tt, w ++ [e]).

Global Instance M_ret : MRet M := λ A a w, (Ok a, w).
Global Instance M_bind : MBind M := λ A B f m w,
  match m w with
  | (Ok a, w') => f a w'
  | (Raised e, w') => (Raised e, w')
  end.

(** [try: m  except Exception as e: h e] *)
Definition try_except {A} (m : M A) (h : exn → M A) : M A :=
  λ w, match m w with
       | (Ok a, w') => (Ok a, w')
       | (Raised e, w') => h e w'
       end.

(** [await asyncio.gather]: every task runs to its end, in task
    order here; the results come back in task order, and a task that raised
    makes [gather] raise only after the others were started. *)
Fixpoint gather {A} (tasks : list (M A)) : M (list A) :=
  match tasks with
  | [] => mret []
  | t :: ts =>
      λ w, match t w with
           | (r, w1) =>
               match gather ts w1 with
               | (rs, w2) =>
                   (match r, rs with
                    | Ok a, Ok l => Ok (a :: l)
                    | Raised e, _ => Raised e
                    | Ok _, Raised e => Raised e
                    end, w2)
               end
           end
  end.

(* ===================================================================== *)
(** ** [perform_fetch]: the same text in both files *)
(* ===================================================================== *)

(** [200 <= status_code <= 299], httpx's [is_success]. *)
Definition is_success (r : Response) : bool :=
  ((200 <=? status_code r) && (status_code r <=? 299))%Z.

Definition success_envelope (r : Response) : json :=
  JObj [("ok", JBool (is_success r));
        ("status", JNum (status_code r));
        ("statusText", JStr (reason_phrase r));
        ("headers", JObj (map (λ kv, (kv.1, JStr kv.2)) (resp_headers r)));
        ("data", match resp_json r with Some d => d | None => JStr (resp_text r) end)].

Definition error_envelope (message : string) : json :=
  JObj [("ok", JBool false);
        ("status", JNum 0);
        ("statusText", JStr "Error");
        ("headers", JObj []);
        ("error", JStr message)].

Section transport.
Variable transport : Transport.

(** [await app.state.http_client.request(method=, url=, headers=, content=)] *)
Definition http_client_request (rq : TransportRequest) : M Response :=
  λ w, match transport w rq with
       | TransportResponse r => (Ok r, w ++ [EvRequest rq])
       | TransportRaised message => (Raised (Exception message), w ++ [EvRequest rq])
       end.

Definition perform_fetch (url : json) (options : json) : M json :=
  let options := match options with JNull => JObj [] | _ => options end in
  try_except
    (method ← lift (py_get options "method" (JStr "GET"));
     headers ← lift (py_get options "headers" (JObj []));
     body ← lift (py_get options "body" JNull);
     response ← http_client_request
       {| rq_method := method; rq_url := url; rq_headers := headers; rq_content := body |};
     mret (success_envelope response))
    (λ e, mret (error_envelope (str_exn e))).
End transport.

(* ===================================================================== *)
(** ** The script engine *)
(* ===================================================================== *)

(** What evaluating a source text does, seen from the host: it ends with a
    value, throws, or calls the interception function and goes on from what
    the call returns.  A script is taken to end. *)
Inductive Script (R : Type) : Type :=
| Done (r : R)
| Throw (message : string)
| Intercept (url options : jsval) (k : jsval → Script R).
Arguments Done {R} r.
Arguments Throw {R} message.
Arguments Intercept {R} url options k.

(** What [ctx.eval] hands to Python: plain data, or an object of a class of
    the engine's binding that wraps a JavaScript value. *)
Inductive pyval : Type :=
| PyData (v : json)
| PyObject (cls : string) (v : jsval).

(** The engine, as far as the services depend on it.  [js_eval src inputs
    names heap] is the behaviour of the text [src] in a context whose global
    [INPUTS] is [inputs], where the interception function is installed under
    [names], and whose other globals are [heap]; it ends with the value of
    the text and the globals it leaves.  [convert_object] is how the binding
    hands over a value that is not a primitive. *)
Record Engine : Type := {
  Heap : Type;
  fresh_heap : Heap;
  js_eval : string → json → list string → Heap → Script (jsval * Heap);
  convert_object : jsval → pyval
}.

Definition to_python (E : Engine) (v : jsval) : pyval :=
  match v with
  | JSUndefined | JSNull => PyData JNull
  | JSBool b => PyData (JBool b)
  | JSNum n => PyData (JNum n)
  | JSStr s => PyData (JStr s)
  | _ => convert_object E v
  end.

Fixpoint starts_with (p s : string) : bool :=
  match p, s with
  | EmptyString, _ => true
  | String a p', String b s' => if decide (a = b) then starts_with p' s' else false
  | String _ _, EmptyString => false
  end.

(** [needle in hay] on [str] *)
Fixpoint contains (needle hay : string) : bool :=
  starts_with needle hay ||
  match hay with
  | EmptyString => false
  | String _ rest => contains needle rest
  end.

(** [str(type(result))] *)
Definition type_str (result : pyval) : string :=
  "<class '" +:+
  match result with PyData v => type_name v | PyObject cls _ => cls end +:+ "'>".

(** [hasattr(result, '__class__') and 'JSObject' in str(type(result))] *)
Definition is_JSObject (result : pyval) : bool := contains "JSObject" (type_str result).

(** The interception function of a context and the global it works on. *)
Inductive Interception : Type :=
| Collect (__httpRequests : list jsval)
| Cached (key_object : jsval → jsval → jsval) (__httpResults : gmap string json).

(** [{ url: url, options: options || {} }], pushed by the collecting function
    of both files. *)
Definition request_record (url options : jsval) : jsval :=
  JSObj [("url", url); ("options", js_or options (JSObj []))].

(** [__httpResults[key]] for [key = JSON.stringify(obj)] *)
Definition cached_result (results : gmap string json) (obj : jsval) : jsval :=
  match results !! default "undefined" (JSON_stringify obj) with
  | Some envelope => json_to_js envelope
  | None => JSUndefined
  end.

Fixpoint run {R} (s : Script R) (i : Interception) : outcome R * Interception :=
  match s with
  | Done r => (Ok r, i)
  | Throw message => (Raised (Exception message), i)
  | Intercept url options k =>
      match i with
      | Collect reqs => run (k JSUndefined) (Collect (reqs ++ [request_record url options]))
      | Cached key_object results =>
          run (k (cached_result results (key_object url options))) i
      end
  end.

Record MiniRacer (E : Engine) : Type := {
  INPUTS : json;
  installed : list string;
  interception : Interception;
  heap : Heap E
}.
Arguments INPUTS {E} _.
Arguments installed {E} _.
Arguments interception {E} _.
Arguments heap {E} _.

Section context.
Context {E : Engine}.

(** The engine runs a guest text in [ctx]; the context keeps what the run
    did to it also when the text throws. *)
Definition guest_eval (ctx : MiniRacer E) (src : string)
    : M (outcome jsval * MiniRacer E) :=
  _ ← emit (EvGuest src);
  match run (js_eval E src (INPUTS ctx) (installed ctx) (heap ctx)) (interception ctx) with
  | (Ok (v, h), i) =>
      mret (Ok v, {| INPUTS := INPUTS ctx; installed := installed ctx;
                     interception := i; heap := h |})
  | (Raised e, i) =>
      mret (Raised e, {| INPUTS := INPUTS ctx; installed := installed ctx;
                         interception := i; heap := heap ctx |})
  end.

(** [ctx.eval(request.code)] *)
Definition eval_code (ctx : MiniRacer E) (code : string)
    : M (outcome pyval * MiniRacer E) :=
  '(r, ctx') ← guest_eval ctx code;
  mret (match r with Ok v => Ok (to_python E v) | Raised e => Raised e end, ctx').

(** [json.loads(ctx.eval("JSON.stringify(__httpRequests)"))] *)
Definition read_http_requests (ctx : MiniRacer E) : outcome (list json) :=
  match interception ctx with
  | Collect reqs => Ok (map (λ x, default JNull (js_to_json x)) reqs)
  | Cached _ _ => Raised (Exception "ReferenceError: __httpRequests is not defined")
  end.

(** [MiniRacer()] followed by the [ctx.eval] calls that install [INPUTS]
    and the interception function. *)
Definition new_context (inputs : json) (names : list string) (i : Interception)
    : M (MiniRacer E) :=
  _ ← emit EvContext;
  mret {| INPUTS := inputs; installed := names; interception := i;
          heap := fresh_heap E |}.
End context.

Record ExecuteRequest : Type := { code : string; inputs : json }.
Record ExecuteResponse : Type := { result : pyval }.

(** [{"error": "Execution failed", "message": str(e)}] *)
Definition execution_failed (e : exn) : exn :=
  HTTPException 500
    (JObj [("error", JStr "Execution failed"); ("message", JStr (str_exn e))]).

Definition invalid_code : exn := HTTPException 400 (JStr "Invalid code parameter").

(** The list comprehension that builds the coroutines: the arguments are
    read for every request before any coroutine runs. *)
Fixpoint fetch_tasks (transport : Transport) (http_requests : list json)
    : outcome (list (M json)) :=
  match http_requests with
  | [] => Ok []
  | req :: rest =>
      match py_getitem req "url" with
      | Raised e => Raised e
      | Ok url =>
          match py_get req "options" JNull with
          | Raised e => Raised e
          | Ok options =>
              match fetch_tasks transport rest with
              | Raised e => Raised e
              | Ok tasks => Ok (perform_fetch transport url options :: tasks)
              end
          end
      end
  end.

(** [{'url': req['url'], 'options': req.get('options', {})}] *)
Definition key_dict (req : json) : outcome json :=
  match py_getitem req "url" with
  | Raised e => Raised e
  | Ok url =>
      match py_get req "options" (JObj []) with
      | Raised e => Raised e
      | Ok options => Ok (JObj [("url", url); ("options", options)])
      end
  end.

(** [for req, result in zip(http_requests, results): http_results[key] = result] *)
Fixpoint results_map (dumps : json → string) (pairs : list (json * json))
    (http_results : gmap string json) : outcome (gmap string json) :=
  match pairs with
  | [] => Ok http_results
  | (req, result) :: rest =>
      match key_dict req with
      | Raised e => Raised e
      | Ok d => results_map dumps rest (<[dumps d := result]> http_results)
      end
  end.

(* ===================================================================== *)
(** ** The host text [JSON.stringify(eval(`...`))] of [python-fastapi] *)
(* ===================================================================== *)

(** [s.replace(old, new)] for a one-character [old] *)
Fixpoint str_replace (old : ascii) (new : string) (s : string) : string :=
  match s with
  | EmptyString => EmptyString
  | String c rest =>
      (if decide (c = old) then new else str1 c) +:+ str_replace old new rest
  end.

(** [request.code.replace('`', '\\`').replace('$', '\\$')] *)
Definition escaped_code (code : string) : string :=
  str_replace DOLLAR (short_escape DOLLAR)
    (str_replace BACKTICK (short_escape BACKTICK) code).

Definition hex_value (c : ascii) : option N :=
  let n := code_point c in
  if ((48 <=? n) && (n <=? 57))%N then Some (n - 48)%N
  else if ((97 <=? n) && (n <=? 102))%N then Some (n - 87)%N
  else if ((65 <=? n) && (n <=? 70))%N then Some (n - 55)%N
  else None.

Definition is_decimal_digit (c : ascii) : bool :=
  ((48 <=? code_point c) && (code_point c <=? 57))%N.

(** The engine reads the characters between the backticks as a template
    literal and evaluates its cooked value.  The reader below is ECMAScript's
    template value for a literal without substitution, one character at a
    time; the state says what the characters before call for. *)
Inductive TState : Type :=
| TPlain
| TEscape                          (* after a backslash *)
| TZero                            (* after backslash 0: no digit may follow *)
| TCR                              (* after a carriage return: a line feed belongs to it *)
| TDollar                          (* after a dollar: a brace opens a substitution *)
| THex (remaining : nat) (acc : N) (* in backslash x or backslash u *)
| TUnicode                         (* after backslash u *)
| TBraced (acc : N) (some : bool)  (* in backslash u brace *).

Definition char_of_code (n : N) : option string :=
  if (n <? 256)%N then Some (str1 (ascii_of_N n)) else None.

Definition plain_step (c : ascii) : option (string * TState) :=
  if decide (c = BACKSLASH) then Some (EmptyString, TEscape)
  else if decide (c = BACKTICK) then None
  else if decide (c = DOLLAR) then Some (EmptyString, TDollar)
  else if decide (c = CH_CR) then Some (str1 CH_LF, TCR)
  else Some (str1 c, TPlain).

Definition escape_step (c : ascii) : option (string * TState) :=
  if decide (c = "n"%char) then Some (str1 CH_LF, TPlain)
  else if decide (c = "t"%char) then Some (str1 CH_TAB, TPlain)
  else if decide (c = "r"%char) then Some (str1 CH_CR, TPlain)
  else if decide (c = "b"%char) then Some (str1 CH_BS, TPlain)
  else if decide (c = "f"%char) then Some (str1 CH_FF, TPlain)
  else if decide (c = "v"%char) then Some (str1 CH_VT, TPlain)
  else if decide (c = "0"%char) then Some (str1 CH_NUL, TZero)
  else if is_decimal_digit c then None
  else if decide (c = "x"%char) then Some (EmptyString, THex 2 0)
  else if decide (c = "u"%char) then Some (EmptyString, TUnicode)
  else if decide (c = CH_LF) then Some (EmptyString, TPlain)
  else if decide (c = CH_CR) then Some (EmptyString, TCR)
  else Some (str1 c, TPlain).

(** A code point of 256 or more is outside the strings of this model; a
    text that names one is refused like a malformed one. *)
Definition template_step (st : TState) (c : ascii) : option (string * TState) :=
  match st with
  | TPlain => plain_step c
  | TEscape => escape_step c
  | TZero => if is_decimal_digit c then None else plain_step c
  | TCR => if decide (c = CH_LF) then Some (EmptyString, TPlain) else plain_step c
  | TDollar =>
      if decide (c = "{"%char) then None
      else '(out, st') ← plain_step c; Some (String DOLLAR out, st')
  | THex remaining acc =>
      d ← hex_value c;
      match remaining with
      | 0 | 1 => out ← char_of_code (acc * 16 + d); Some (out, TPlain)
      | S k => Some (EmptyString, THex k (acc * 16 + d)%N)
      end
  | TUnicode =>
      if decide (c = "{"%char) then Some (EmptyString, TBraced 0 false)
      else d ← hex_value c; Some (EmptyString, THex 3 d)
  | TBraced acc some =>
      if decide (c = "}"%char)
      then (if some then out ← char_of_code acc; Some (out, TPlain) else None)
      else d ← hex_value c; Some (EmptyString, TBraced (acc * 16 + d)%N true)
  end.

Definition template_end (st : TState) : option string :=
  match st with
  | TPlain | TZero | TCR => Some EmptyString
  | TDollar => Some (str1 DOLLAR)
  | _ => None
  end.

Fixpoint template_value_from (st : TState) (s : string) : option string :=
  match s with
  | EmptyString => template_end st
  | String c rest =>
      '(out, st') ← template_step st c;
      tail ← template_value_from st' rest;
      Some (out +:+ tail)
  end.

(** The text that [eval] receives when the host text is
    [JSON.stringify(eval(`chars`))]; [None] when the host text is not this
    call on one literal (the literal ends early, has a substitution, or is
    malformed), in which case the engine raises. *)
Definition template_value (chars : string) : option string :=
  template_value_from TPlain chars.

Section stringified.
Context {E : Engine}.

(** [ctx.eval(f"JSON.stringify(eval(`{escaped_code}`))")], up to the value
    that [JSON.stringify] is applied to. *)
Definition eval_template (ctx : MiniRacer E) (chars : string)
    : M (outcome jsval * MiniRacer E) :=
  match template_value chars with
  | Some src => guest_eval ctx src
  | None => mret (Raised (Exception "SyntaxError"), ctx)
  end.

(** [json.loads(result_json) if result_json else result] for
    [result_json = JSON.stringify(v)] *)
Definition loads_or_keep (v : jsval) (result : pyval) : pyval :=
  match JSON_stringify v, js_to_json v with
  | Some result_json, Some parsed =>
      if decide (result_json = EmptyString) then result else PyData parsed
  | _, _ => result
  end.

(** The [except] branch of the first pass: the requests collected so far
    decide whether the exception is raised again. *)
Definition except_branch (ctx : MiniRacer E) (e : exn) : M (ExecuteResponse + list json) :=
  http_requests ← lift (read_http_requests ctx);
  match http_requests with
  | [] => raise e
  | _ => mret (inr http_requests)
  end.
End stringified.

(* ===================================================================== *)
(** ** [src/main.py] *)
(* ===================================================================== *)

Module SrcMain.
Section service.
Context (E : Engine) (transport : Transport).

(** The names under which the interception function is installed. *)
Definition interception_names : list string := ["httpGet"].

(** [JSON.stringify({ url: url, options: options || {} })] *)
Definition key_object (url options : jsval) : jsval :=
  JSObj [("url", url); ("options", js_or options (JSObj []))].

Definition create_context_with_http_support
    (inputs : json) (http_results : option (gmap string json)) : M (MiniRacer E) :=
  match http_results with
  | None => new_context inputs interception_names (Collect [])
  | Some results => new_context inputs interception_names (Cached key_object results)
  end.

(** The first [try] block: the response it returns, or the requests it
    leaves for the lines after it. *)
Definition trace_pass (request : ExecuteRequest) : M (ExecuteResponse + list json) :=
  ctx ← create_context_with_http_support (inputs request) None;
  '(r, ctx) ← eval_code ctx (code request);
  match r with
  | Raised e => except_branch ctx e
  | Ok result =>
      match read_http_requests ctx with
      | Raised e => except_branch ctx e
      | Ok [] => mret (inl {| result := result |})
      | Ok http_requests => mret (inr http_requests)
      end
  end.

(** [key = json.dumps({'url': req['url'], 'options': req.get('options', {})})] *)
Definition results_key (d : json) : string := json_dumps d.

Definition resolve (http_requests : list json) : M (gmap string json) :=
  tasks ← lift (fetch_tasks transport http_requests);
  results ← gather tasks;
  lift (results_map results_key (zip http_requests results) ∅).

Definition replay_pass (request : ExecuteRequest) (http_results : gmap string json)
    : M ExecuteResponse :=
  ctx2 ← create_context_with_http_support (inputs request) (Some http_results);
  '(r, _) ← eval_code ctx2 (code request);
  result ← lift r;
  mret {| result := result |}.

Definition execute_code (request : ExecuteRequest) : M ExecuteResponse :=
  if decide (code request = EmptyString) then raise invalid_code
  else
    try_except
      (t ← trace_pass request;
       match t with
       | inl response => mret response
       | inr http_requests =>
           http_results ← resolve http_requests;
           replay_pass request http_results
       end)
      (λ e, raise (execution_failed e)).
End service.
End SrcMain.

(* ===================================================================== *)
(** ** [python-fastapi/src/main.py] *)
(* ===================================================================== *)

Module PythonFastapi.
Section service.
Context (E : Engine) (transport : Transport).

(** [httpRequest], and [httpGet] as an alias of it. *)
Definition interception_names : list string := ["httpRequest"; "httpGet"].

(** [JSON.stringify({ 'options': options || {}, 'url': url })] *)
Definition key_object (url options : jsval) : jsval :=
  JSObj [("options", js_or options (JSObj [])); ("url", url)].

Definition create_context_with_http_support
    (inputs : json) (http_results : option (gmap string json)) : M (MiniRacer E) :=
  match http_results with
  | None => new_context inputs interception_names (Collect [])
  | Some results => new_context inputs interception_names (Cached key_object results)
  end.

(** The lines under [# Handle JSObject by stringifying via eval]. *)
Definition stringify_via_eval (ctx : MiniRacer E) (code : string) (result : pyval)
    : M (outcome pyval * MiniRacer E) :=
  '(r, ctx) ← eval_template ctx (escaped_code code);
  mret (match r with
        | Ok v => Ok (loads_or_keep v result)
        | Raised e => Raised e
        end, ctx).

Definition trace_pass (request : ExecuteRequest) : M (ExecuteResponse + list json) :=
  ctx ← create_context_with_http_support (inputs request) None;
  '(r, ctx) ← eval_code ctx (code request);
  match r with
  | Raised e => except_branch ctx e
  | Ok result =>
      match read_http_requests ctx with
      | Raised e => except_branch ctx e
      | Ok [] =>
          if is_JSObject result then
            '(r2, ctx) ← stringify_via_eval ctx (code request) result;
            match r2 with
            | Raised e => except_branch ctx e
            | Ok result => mret (inl {| result := result |})
            end
          else mret (inl {| result := result |})
      | Ok http_requests => mret (inr http_requests)
      end
  end.

(** [json.dumps({...}, sort_keys=True, separators=(',', ':'))] *)
Definition results_key (d : json) : string := json_dumps_sorted_compact d.

Definition resolve (http_requests : list json) : M (gmap string json) :=
  tasks ← lift (fetch_tasks transport http_requests);
  results ← gather tasks;
  lift (results_map results_key (zip http_requests results) ∅).

Definition replay_pass (request : ExecuteRequest) (http_results : gmap string json)
    : M ExecuteResponse :=
  ctx2 ← create_context_with_http_support (inputs request) (Some http_results);
  '(r, ctx2) ← eval_code ctx2 (code request);
  result ← lift r;
  if is_JSObject result then
    '(r2, _) ← stringify_via_eval ctx2 (code request) result;
    result ← lift r2;
    mret {| result := result |}
  else mret {| result := result |}.

Definition execute_code (request : ExecuteRequest) : M ExecuteResponse :=
  if decide (code request = EmptyString) then raise invalid_code
  else
    try_except
      (t ← trace_pass request;
       match t with
       | inl response => mret response
       | inr http_requests =>
           http_results ← resolve http_requests;
           replay_pass request http_results
       end)
      (λ e, match e with
            | HTTPException _ _ => raise e
            | Exception _ => raise (execution_failed e)
            end).
End service.
End PythonFastapi.

(* ===================================================================== *)
(** ** Vocabulary of the statements *)
(* ===================================================================== *)

(** The events that a run added to the world it started from. *)
Definition requests_in (w : World) : list TransportRequest :=
  omap (λ e, match e with EvRequest rq => Some rq | _ => None end) w.
Definition guest_runs_in (w : World) : list string :=
  omap (λ e, match e with EvGuest src => Some src | _ => None end) w.

(** The request that [perform_fetch] hands to the transport: none when
    [options] is not a mapping, because [options.get] raises first. *)
Definition fetch_request (url options : json) : option TransportRequest :=
  match match options with JNull => JObj [] | _ => options end with
  | JObj kvs =>
      Some {| rq_method := default (JStr "GET") (assoc "method" kvs);
              rq_url := url;
              rq_headers := default (JObj []) (assoc "headers" kvs);
              rq_content := default JNull (assoc "body" kvs) |}
  | _ => None
  end.

Definition no_get_method (options : json) : string :=
  "'" +:+ type_name options +:+ "' object has no attribute 'get'".

Definition envelope_of (outcome : TransportOutcome) : json :=
  match outcome with
  | TransportRaised message => error_envelope message
  | TransportResponse r => success_envelope r
  end.

(** The run of the guest code in the collecting context of a fresh request,
    where the interception function is installed under [names]. *)
Definition first_run (E : Engine) (names : list string) (request : ExecuteRequest)
    : outcome (jsval * Heap E) * Interception :=
  run (js_eval E (code request) (inputs request) names (fresh_heap E)) (Collect []).

(** [json.loads] of the stringified [__httpRequests] *)
Definition http_requests_of (log : list jsval) : list json :=
  map (λ x, default JNull (js_to_json x)) log.

(** The world after the first pass has created its context and run the code. *)
Definition after_first_run (request : ExecuteRequest) (w : World) : World :=
  w ++ [EvContext; EvGuest (code request)].

(** A value that [ctx.eval] hands over as plain Python data. *)
Definition primitive (v : jsval) : Prop :=
  match v with
  | JSUndefined | JSNull | JSBool _ | JSNum _ | JSStr _ => True
  | _ => False
  end.

(** A traced request that has its [url]: [req['url']] does not raise. *)
Definition has_url (req : json) : Prop := ∃ url, py_getitem req "url" = Ok url.

(** The arguments [req['url'], req.get('options')] of the coroutine made
    for a traced request. *)
Definition fetch_args (req : json) : option (json * json) :=
  match py_getitem req "url", py_get req "options" JNull with
  | Ok url, Ok options => Some (url, options)
  | _, _ => None
  end.

(** The request that the coroutine made for [req] hands to the transport. *)
Definition sent_request (req : json) : option TransportRequest :=
  '(url, options) ← fetch_args req; fetch_request url options.

(** The key under which the envelope of [req] is stored. *)
Definition request_key (dumps : json → string) (req : json) : option string :=
  match key_dict req with
  | Ok d => Some (dumps d)
  | Raised _ => None
  end.

(** One coroutine, and all of them in task order: envelope and world. *)
Definition fetch_one (transport : Transport) (w : World) (req : json) : json * World :=
  match fetch_args req with
  | Some (url, options) =>
      match fetch_request url options with
      | Some rq => (envelope_of (transport w rq), w ++ [EvRequest rq])
      | None => (error_envelope (no_get_method options), w)
      end
  | None => (JNull, w)
  end.

Fixpoint fetch_all (transport : Transport) (w : World) (reqs : list json)
    : list json * World :=
  match reqs with
  | [] => ([], w)
  | req :: rest =>
      let '(envelope, w1) := fetch_one transport w req in
      let '(envelopes, w2) := fetch_all transport w1 rest in
      (envelope :: envelopes, w2)
  end.

(** The table after the assignments [http_results[key] = result], made in
    the order of the traced requests. *)
Definition store (dumps : json → string) (table : gmap string json)
    (pair : json * json) : gmap string json :=
  match request_key dumps pair.1 with
  | Some key => <[key := pair.2]> table
  | None => table
  end.

(** The resolution phase of either service, for its own [dumps]. *)
Definition resolve_with (transport : Transport) (dumps : json → string)
    (reqs : list json) : M (gmap string json) :=
  tasks ← lift (fetch_tasks transport reqs);
  results ← gather tasks;
  lift (results_map dumps (zip reqs results) ∅).

(** What C7 says of a resolution phase [resolve] that stores under the keys
    of [dumps]: it returns exactly when every traced request has its [url];
    when it returns, every coroutine has run to its envelope and handed its
    request to the transport, every entry of the table is the envelope of
    a traced request with that key, every traced request has its key in
    the table, and no key has two entries. *)
Definition resolution_complete (transport : Transport) (dumps : json → string)
    (resolve : list json → M (gmap string json)) (reqs : list json) (w : World) : Prop :=
  (Forall has_url reqs ↔ ∃ table w', resolve reqs w = (Ok table, w'))
  ∧ ∀ table w', resolve reqs w = (Ok table, w') →
      ∃ tasks envelopes,
        fetch_tasks transport reqs = Ok tasks
        ∧ gather tasks w = (Ok envelopes, w')
        ∧ length envelopes = length reqs
        ∧ w' = w ++ map EvRequest (omap sent_request reqs)
        ∧ (∀ key envelope, table !! key = Some envelope →
             ∃ j req, reqs !! j = Some req ∧ request_key dumps req = Some key
                      ∧ envelopes !! j = Some envelope)
        ∧ (∀ req, req ∈ reqs →
             ∃ key, request_key dumps req = Some key ∧ is_Some (table !! key))
        ∧ NoDup (map_to_list table).*1.

(** What holds of the calls of a resolution phase in place of C1: one
    transport call for each traced request whose options are a mapping, in
    trace order, a repeated request being sent again; in the table, the
    entry of a key is the envelope of the last traced request with that key;
    and in the second pass a call is answered from the table by the key of
    its arguments alone, leaving the table as it is. *)
Definition dispatch_per_call (transport : Transport) (dumps : json → string)
    (resolve : list json → M (gmap string json)) (key_object : jsval → jsval → jsval)
    (reqs : list json) (w : World) : Prop :=
  ∃ tasks envelopes table,
    fetch_tasks transport reqs = Ok tasks
    ∧ gather tasks w = (Ok envelopes, w ++ map EvRequest (omap sent_request reqs))
    ∧ resolve reqs w = (Ok table, w ++ map EvRequest (omap sent_request reqs))
    ∧ (Forall (λ req, is_Some (sent_request req)) reqs →
         length (omap sent_request reqs) = length reqs)
    ∧ (∀ i req key,
         reqs !! i = Some req → request_key dumps req = Some key →
         (∀ j req', i < j → reqs !! j = Some req' → request_key dumps req' ≠ Some key) →
         table !! key = envelopes !! i)
    ∧ (∀ (R : Type) url options (k : jsval → Script R),
         run (Intercept url options k) (Cached key_object table)
         = run (k (cached_result table (key_object url options))) (Cached key_object table))
    ∧ (∀ url options url' options',
         JSON_stringify (key_object url options) = JSON_stringify (key_object url' options') →
         cached_result table (key_object url options)
         = cached_result table (key_object url' options')).

(** A host step whose result does not depend on the world it starts from,
    and a transport that answers a request the same way whatever happened
    before. *)
Definition world_blind {A} (m : M A) : Prop := ∀ w1 w2, (m w1).1 = (m w2).1.
Definition constant_transport (transport : Transport) : Prop :=
  ∀ w1 w2 rq, transport w1 rq = transport w2 rq.

(** A text that does not begin with a space. *)
Definition starts_without_space (s : string) : Prop :=
  match s with
  | String c _ => c ≠ " "%char
  | EmptyString => False
  end.

(** Characters that the two string encoders print alike. *)
Definition plain_char (c : ascii) : Prop := (code_point c ≤ 126)%N.
Definition plain_string (s : string) : Prop :=
  Forall plain_char (String.list_ascii_of_string s).

(** A value that [json.dumps] with sorted keys and [JSON.stringify] print
    alike: its strings and property names are plain, every property has a
    value that [JSON.stringify] prints, and within each object the property
    names increase. *)
Fixpoint canonical (v : jsval) : Prop :=
  match v with
  | JSStr s => plain_string s
  | JSArr xs => foldr (λ x acc, canonical x ∧ acc) True xs
  | JSObj props =>
      StronglySorted String.le props.*1 ∧ NoDup props.*1
      ∧ foldr (λ kv acc,
                 (plain_string kv.1 ∧ is_Some (js_to_json kv.2) ∧ canonical kv.2) ∧ acc)
              True props
  | _ => True
  end.

Section phases.
Context (E : Engine) (transport : Transport).
Implicit Types (request : ExecuteRequest) (w : World).

(** What the [try]/[except] around the whole body does with the rest of
    the request, once the first pass has left [http_requests]. *)
Definition src_second_phase request (http_requests : list json) : M ExecuteResponse :=
  try_except
    (http_results ← SrcMain.resolve transport http_requests;
     SrcMain.replay_pass E request http_results)
    (λ e, raise (execution_failed e)).

Definition fastapi_second_phase request (http_requests : list json) : M ExecuteResponse :=
  try_except
    (http_results ← PythonFastapi.resolve transport http_requests;
     PythonFastapi.replay_pass E request http_results)
    (λ e, match e with
          | HTTPException _ _ => raise e
          | Exception _ => raise (execution_failed e)
          end).

(** The second evaluation that [python-fastapi] makes in the context of the
    first pass when the first result is a [JSObject]: [src] is the text
    that [eval] receives and [h] the globals that the first run left. *)
Definition second_run request (src : string) (h : Heap E)
    : outcome (jsval * Heap E) * Interception :=
  run (js_eval E src (inputs request) PythonFastapi.interception_names h) (Collect []).

End phases.

(* ===================================================================== *)
(** ** Sample guest scripts, a sample engine and sample transports *)
(* ===================================================================== *)

Module Samples.
(** [v.name] *)
Definition member {R} (v : jsval) (name : string) (k : jsval → Script R) : Script R :=
  match v with
  | JSUndefined =>
      Throw ("TypeError: Cannot read properties of undefined (reading '" +:+ name +:+ "')")
  | JSNull =>
      Throw ("TypeError: Cannot read properties of null (reading '" +:+ name +:+ "')")
  | JSObj props => k (default JSUndefined (assoc name props))
  | _ => k JSUndefined
  end.

Definition sum_xy : string := "INPUTS.x + INPUTS.y".
Definition typeof_httpRequest : string := "typeof httpRequest".
Definition one_call : string := "httpGet('http://a').status".
Definition same_call_twice : string := "httpGet('http://a'); httpGet('http://a').status".
Definition object_literal : string := "({a:1})".
Definition object_with_escape : string := "({s:'a\nb'})".
Definition object_with_newline : string := "({s:'a" +:+ str1 CH_LF +:+ "b'})".
Definition post_call : string :=
  "const response = httpGet('http://wiremock:8080/api/data', {method: 'POST', headers: { 'Content-Type': 'application/json' }, body: JSON.stringify({ test: true })}); response.data.success".

Definition post_options : jsval :=
  JSObj [("method", JSStr "POST");
         ("headers", JSObj [("Content-Type", JSStr "application/json")]);
         ("body", JSStr (dq "{'test':true}"))].

(** What V8 does with the sample texts ([sum_xy] on integer inputs).  A
    text the table does not list is a syntax error for this engine, as is
    the text with a raw line break inside a string literal. *)
Definition sample_eval (src : string) (inputs : json) (names : list string) (h : unit)
    : Script (jsval * unit) :=
  if decide (src = sum_xy) then
    match py_get inputs "x" JNull, py_get inputs "y" JNull with
    | Ok (JNum x), Ok (JNum y) => Done (JSNum (x + y), h)
    | _, _ => Throw "sample engine: INPUTS.x and INPUTS.y must be integers"
    end
  else if decide (src = typeof_httpRequest) then
    Done (JSStr (if decide ("httpRequest" ∈ names) then "function" else "undefined"), h)
  else if decide (src = one_call) then
    Intercept (JSStr "http://a") JSUndefined (λ r, member r "status" (λ v, Done (v, h)))
  else if decide (src = same_call_twice) then
    Intercept (JSStr "http://a") JSUndefined (λ _,
      Intercept (JSStr "http://a") JSUndefined (λ r,
        member r "status" (λ v, Done (v, h))))
  else if decide (src = object_literal) then
    Done (JSObj [("a", JSNum 1)], h)
  else if decide (src = object_with_escape) then
    Done (JSObj [("s", JSStr ("a" +:+ str1 CH_LF +:+ "b"))], h)
  else if decide (src = post_call) then
    Intercept (JSStr "http://wiremock:8080/api/data") post_options (λ response,
      member response "data" (λ data, member data "success" (λ v, Done (v, h))))
  else Throw "SyntaxError: Invalid or unexpected token".

Definition sample_engine : Engine := {|
  Heap := unit;
  fresh_heap := tt;
  js_eval := sample_eval;
  convert_object := λ v,
    match v with
    | JSArr _ => PyObject "py_mini_racer.JSArray" v
    | JSFunction => PyObject "py_mini_racer.JSFunction" v
    | _ => PyObject "py_mini_racer.JSObject" v
    end
|}.

Definition created : Response := {|
  status_code := 201; reason_phrase := "Created"; resp_headers := [];
  resp_text := dq "{'success': true}";
  resp_json := Some (JObj [("success", JBool true)])
|}.

(** A server that answers every request with [201 Created]. *)
Definition always_created : Transport := λ _ _, TransportResponse created.

(** A server whose status code counts the requests it has seen. *)
Definition counting : Transport := λ w _,
  TransportResponse {|
    status_code := 200 + Z.of_nat (length (filter (λ e, is_request e = true) w));
    reason_phrase := "OK"; resp_headers := []; resp_text := "ok"; resp_json := None
  |}.

Definition refusing : Transport := λ _ _, TransportRaised "All connection attempts failed".
End Samples.

(* ===================================================================== *)
(** ** Vocabulary of the further statements *)
(* ===================================================================== *)

(** The contexts that were created in a world. *)
Definition contexts_in (w : World) : nat :=
  length (omap (λ e, match e with EvContext => Some tt | _ => None end) w).

(** The second pass of [src/main.py] and of [python-fastapi] on the run of
    the guest code against the table. *)
Definition replay_run (E : Engine) (names : list string)
    (key_object : jsval → jsval → jsval) (request : ExecuteRequest)
    (table : gmap string json) : outcome (jsval * Heap E) * Interception :=
  run (js_eval E (code request) (inputs request) names (fresh_heap E))
      (Cached key_object table).

(** The world after the second pass has created its context and run the
    code. *)
Definition after_replay (request : ExecuteRequest) (w : World) : World :=
  w ++ [EvContext; EvGuest (code request)].

(** A script that has ended: it makes no further call. *)
Definition ended {R} (s : Script R) : Prop :=
  match s with
  | Intercept _ _ _ => False
  | _ => True
  end.

(** What [ctx.eval] makes of a script that has ended. *)
Definition outcome_of {R} (s : Script R) : outcome R :=
  match s with
  | Done r => Ok r
  | Throw message => Raised (Exception message)
  | Intercept _ _ _ => Raised (Exception "not ended")
  end.

(** A script whose calls do not depend on what the calls return: it calls
    the interception function with [calls], in this order, and ends with
    what [finish] makes of the answers. *)
Fixpoint straight {R} (calls : list (jsval * jsval)) (finish : list jsval → Script R)
    : Script R :=
  match calls with
  | [] => finish []
  | (url, options) :: rest =>
      Intercept url options (λ answer,
        straight rest (λ answers, finish (answer :: answers)))
  end.

(** The traced requests of the calls of a script, as the first pass reads
    them back. *)
Definition traced (calls : list (jsval * jsval)) : list json :=
  http_requests_of (map (λ call, request_record call.1 call.2) calls).

(** The table that the resolution phase of [python-fastapi] builds for
    [calls] from the world [w], and what the second pass answers from it. *)
Definition table_of (transport : Transport) (dumps : json → string) (w : World)
    (calls : list (jsval * jsval)) : gmap string json :=
  foldl (store dumps) ∅ (zip (traced calls) (fetch_all transport w (traced calls)).1).

Definition answers_of (key_object : jsval → jsval → jsval) (table : gmap string json)
    (calls : list (jsval * jsval)) : list jsval :=
  map (λ call, cached_result table (key_object call.1 call.2)) calls.

(** A call whose target and options [json.dumps] with sorted keys and
    [JSON.stringify] print alike. *)
Definition prints_alike (call : jsval * jsval) : Prop :=
  is_Some (js_to_json call.1) ∧ canonical call.1
  ∧ is_Some (js_to_json (js_or call.2 (JSObj []))) ∧ canonical (js_or call.2 (JSObj [])).

(** One character of a text. *)
Definition occurs (c : ascii) (s : string) : Prop := c ∈ String.list_ascii_of_string s.

(** A traced request as the collecting function pushes it. *)
Definition is_record (x : jsval) : Prop := ∃ url options, x = request_record url options.

(** Further sample scripts: a call without arguments, a call that is the
    whole script, a call whose target has a character outside ASCII, a call
    whose target is computed from the answer to another, and two calls that
    are made before their answers are looked at. *)
Module MoreSamples.
Definition call_without_url : string := "httpGet()".
Definition envelope_call : string := "httpGet('http://a')".
Definition e_acute : ascii := "233"%char.
Definition cafe_url : string := "http://a/caf" +:+ str1 e_acute.
Definition cafe_call : string := "httpGet('" +:+ cafe_url +:+ "').status".
Definition chained_call : string :=
  "httpGet('http://b/' + httpGet('http://a').status).status".
Definition two_calls : string :=
  "const a = httpGet('http://a'); const b = httpGet('http://b'); a.status + b.status".

(** [a + b] on numbers; the samples add nothing else. *)
Definition plus {R} (a b : jsval) (k : jsval → Script R) : Script R :=
  match a, b with
  | JSNum x, JSNum y => k (JSNum (x + y))
  | _, _ => Throw "sample engine: only integers are added"
  end.

(** ['http://b/' + v] for the values the samples meet. *)
Definition concat_to {R} (prefix : string) (v : jsval) (k : jsval → Script R) : Script R :=
  match v with
  | JSUndefined => k (JSStr (prefix +:+ "undefined"))
  | JSNull => k (JSStr (prefix +:+ "null"))
  | JSBool true => k (JSStr (prefix +:+ "true"))
  | JSBool false => k (JSStr (prefix +:+ "false"))
  | JSNum n => k (JSStr (prefix +:+ pretty n))
  | JSStr s => k (JSStr (prefix +:+ s))
  | _ => Throw "sample engine: only primitives are appended"
  end.

Definition more_eval (src : string) (inputs : json) (names : list string) (h : unit)
    : Script (jsval * unit) :=
  if decide (src = envelope_call) then
    Intercept (JSStr "http://a") JSUndefined (λ r, Done (r, h))
  else if decide (src = call_without_url) then
    Intercept JSUndefined JSUndefined (λ r, Done (r, h))
  else if decide (src = cafe_call) then
    Intercept (JSStr cafe_url) JSUndefined (λ r,
      Samples.member r "status" (λ v, Done (v, h)))
  else if decide (src = chained_call) then
    Intercept (JSStr "http://a") JSUndefined (λ ra,
      Samples.member ra "status" (λ a,
        concat_to "http://b/" a (λ url,
          Intercept url JSUndefined (λ rb,
            Samples.member rb "status" (λ v, Done (v, h))))))
  else if decide (src = two_calls) then
    Intercept (JSStr "http://a") JSUndefined (λ ra,
      Intercept (JSStr "http://b") JSUndefined (λ rb,
        Samples.member ra "status" (λ a,
          Samples.member rb "status" (λ b, plus a b (λ v, Done (v, h))))))
  else Samples.sample_eval src inputs names h.

(** How [two_calls] ends, given the answers to its two calls. *)
Definition two_calls_finish (answers : list jsval) : Script (jsval * unit) :=
  match answers with
  | [ra; rb] =>
      Samples.member ra "status" (λ a,
        Samples.member rb "status" (λ b, plus a b (λ v, Done (v, tt))))
  | _ => Throw "sample engine: two answers expected"
  end.

Definition more_engine : Engine := {|
  Heap := unit;
  fresh_heap := tt;
  js_eval := more_eval;
  convert_object := convert_object Samples.sample_engine
|}.
End MoreSamples.

(* ===================================================================== *)
(** ** Reasoning about host steps *)
(* ===================================================================== *)

Example dumps_default :
  json_dumps (JObj [("url", JStr "http://a"); ("options", JObj [("n", JArr [JNum 1; JNum (-2)])])])
  = dq "{'url': 'http://a', 'options': {'n': [1, -2]}}".
Proof. vm_compute. reflexivity. Qed.

Example dumps_sorted :
  json_dumps_sorted_compact
    (JObj [("url", JStr "http://a"); ("options", JObj [("method", JStr "POST"); ("body", JNull)])])
  = dq "{'options':{'body':null,'method':'POST'},'url':'http://a'}".
Proof. vm_compute. reflexivity. Qed.

Example stringify_insertion_order :
  JSON_stringify
    (JSObj [("options", JSObj [("method", JSStr "POST"); ("body", JSNull); ("cb", JSFunction)]);
            ("url", JSStr "http://a")])
  = Some (dq "{'options':{'method':'POST','body':null},'url':'http://a'}").
Proof. vm_compute. reflexivity. Qed.

Ltac unfold_M :=
  unfold mbind, M_bind, mret, M_ret, lift, raise, emit, try_except in *.

Lemma perform_fetch_unfold (transport : Transport) url options w :
  perform_fetch transport url options w =
  match fetch_request url options with
  | Some rq => (Ok (envelope_of (transport w rq)), w ++ [EvRequest rq])
  | None => (Ok (error_envelope (no_get_method options)), w)
  end.
Proof.
  unfold perform_fetch, fetch_request, http_client_request, no_get_method.
  unfold_M.
  destruct options; simpl; try reflexivity;
    match goal with |- context [transport w ?rq] => destruct (transport w rq) end;
    reflexivity.
Qed.

(* ===================================================================== *)
(** ** C5 and C6 *)
(* ===================================================================== *)

(** C5.  A request whose [code] is the empty string is refused by both
    services with [HTTPException(status_code=400)], and the world is left as
    it was: no context is created, nothing is evaluated, nothing is sent.
    (That [code] is a string is the type of the field.) *)
Theorem C5_empty_code_rejected (E : Engine) (transport : Transport) (i : json) (w : World) :
  SrcMain.execute_code E transport {| code := EmptyString; inputs := i |} w
    = (Raised (HTTPException 400 (JStr "Invalid code parameter")), w)
  ∧ PythonFastapi.execute_code E transport {| code := EmptyString; inputs := i |} w
    = (Raised (HTTPException 400 (JStr "Invalid code parameter")), w).
Proof. split; reflexivity. Qed.

(** C6.  [perform_fetch] never raises.  When the transport raises, it
    returns the envelope [ok: False, status: 0, statusText: Error, headers:
    {}, error: str(e)]; when the transport answers, it returns [ok, status,
    statusText, headers, data] with [ok] true exactly for a status from 200
    to 299 and [data] the parsed body if the body parses, else its text.
    (When [options] is not a mapping the transport is not called at all and
    the error envelope carries the message of the failed [options.get].) *)
Theorem C6_perform_fetch_never_raises (transport : Transport) (url options : json) (w : World) :
  ∃ envelope w',
    perform_fetch transport url options w = (Ok envelope, w')
    ∧ (fetch_request url options = None →
         w' = w ∧ envelope = error_envelope (no_get_method options))
    ∧ ∀ rq, fetch_request url options = Some rq →
        w' = w ++ [EvRequest rq]
        ∧ match transport w rq with
          | TransportRaised message =>
              envelope = JObj [("ok", JBool false); ("status", JNum 0);
                               ("statusText", JStr "Error"); ("headers", JObj []);
                               ("error", JStr message)]
          | TransportResponse r =>
              envelope = JObj [("ok", JBool (is_success r));
                               ("status", JNum (status_code r));
                               ("statusText", JStr (reason_phrase r));
                               ("headers", JObj (map (λ kv, (kv.1, JStr kv.2)) (resp_headers r)));
                               ("data", match resp_json r with
                                        | Some parsed => parsed
                                        | None => JStr (resp_text r)
                                        end)]
              ∧ (is_success r = true ↔ (200 ≤ status_code r ≤ 299)%Z)
          end.
Proof.
  rewrite perform_fetch_unfold.
  destruct (fetch_request url options) as [rq|] eqn:Hrq.
  - eexists _, _. split; [reflexivity|]. split; [intros [=]|].
    intros rq' [= <-]. split; [reflexivity|].
    destruct (transport w rq) as [message|r]; simpl; [reflexivity|].
    split; [reflexivity|]. unfold is_success.
    rewrite andb_true_iff, !Z.leb_le. reflexivity.
  - eexists _, _. split; [reflexivity|]. split; [done|]. intros rq' [=].
Qed.

Lemma C6_witness :
  ∃ envelope w',
    perform_fetch Samples.refusing (JStr "http://a") JNull [] = (Ok envelope, w')
    ∧ py_getitem envelope "ok" = Ok (JBool false)
    ∧ py_getitem envelope "error" = Ok (JStr "All connection attempts failed").
Proof.
  destruct (C6_perform_fetch_never_raises Samples.refusing (JStr "http://a") JNull [])
    as (envelope & w' & Hrun & Hcase).
  exists envelope, w'. split; [exact Hrun|].
  destruct Hcase as [_ Hcase]. destruct (Hcase _ eq_refl) as [_ ->]. split; reflexivity.
Defined.

(* ===================================================================== *)
(** ** The first pass *)
(* ===================================================================== *)

Lemma run_collect {R} (s : Script R) (log : list jsval) :
  ∃ r more, run s (Collect log) = (r, Collect (log ++ more)).
Proof.
  revert log. induction s as [r|message|url options k IH]; intros log; simpl.
  - exists (Ok r), []. by rewrite app_nil_r.
  - exists (Raised (Exception message)), []. by rewrite app_nil_r.
  - destruct (IH JSUndefined (log ++ [request_record url options])) as (r & more & ->).
    exists r, (request_record url options :: more). by rewrite <- app_assoc.
Qed.

Lemma run_cached {R} (s : Script R) key_object results :
  ∃ r, run s (Cached key_object results) = (r, Cached key_object results).
Proof.
  induction s as [r|message|url options k IH]; simpl; eauto.
Qed.

Lemma run_raises_message {R} (s : Script R) (i i' : Interception) (e : exn) :
  run s i = (Raised e, i') → ∃ message, e = Exception message.
Proof.
  revert i. induction s as [r|message|url options k IH]; intros i; simpl.
  - intros [=].
  - intros [= <- _]. eauto.
  - destruct i; eauto.
Qed.

Lemma eval_code_unfold {E : Engine} (ctx : MiniRacer E) (src : string) (w : World) :
  eval_code ctx src w =
  match run (js_eval E src (INPUTS ctx) (installed ctx) (heap ctx)) (interception ctx) with
  | (Ok (v, h), i) =>
      (Ok (Ok (to_python E v),
           {| INPUTS := INPUTS ctx; installed := installed ctx; interception := i; heap := h |}),
       w ++ [EvGuest src])
  | (Raised e, i) =>
      (Ok (Raised e,
           {| INPUTS := INPUTS ctx; installed := installed ctx; interception := i;
              heap := heap ctx |}),
       w ++ [EvGuest src])
  end.
Proof.
  unfold eval_code, guest_eval. unfold_M.
  destruct (run _ _) as [[[v h]|e] i]; reflexivity.
Qed.

Section first_pass.
Context (E : Engine) (transport : Transport).
Implicit Types (request : ExecuteRequest) (w : World).

Lemma src_trace_pass_unfold request w :
  SrcMain.trace_pass E request w =
  match first_run E SrcMain.interception_names request with
  | (Ok (v, _), Collect []) => (Ok (inl {| result := to_python E v |}), after_first_run request w)
  | (Raised e, Collect []) => (Raised e, after_first_run request w)
  | (_, Collect log) => (Ok (inr (http_requests_of log)), after_first_run request w)
  | (Ok _, Cached _ _) =>
      (Raised (Exception "ReferenceError: __httpRequests is not defined"),
       after_first_run request w)
  | (Raised e, Cached _ _) =>
      (Raised (Exception "ReferenceError: __httpRequests is not defined"),
       after_first_run request w)
  end.
Proof.
  unfold SrcMain.trace_pass, SrcMain.create_context_with_http_support, new_context,
    first_run, after_first_run.
  unfold mbind at 1, M_bind at 1. unfold mbind at 1, M_bind at 1.
  unfold emit at 1. unfold mret at 1, M_ret at 1.
  unfold mbind at 1, M_bind at 1. rewrite eval_code_unfold. simpl.
  destruct (run _ _) as [[[v h]|e] [log|ko res]]; simpl;
    unfold except_branch, read_http_requests; unfold_M; simpl;
    rewrite <- ?app_assoc; simpl; try reflexivity;
    destruct log; reflexivity.
Qed.
End first_pass.

Section first_pass_fastapi.
Context (E : Engine) (transport : Transport).
Implicit Types (request : ExecuteRequest) (w : World).

Lemma fastapi_trace_pass_unfold request w :
  PythonFastapi.trace_pass E request w =
  match first_run E PythonFastapi.interception_names request with
  | (Ok (v, h), Collect []) =>
      if is_JSObject (to_python E v) then
        match template_value (escaped_code (code request)) with
        | None => (Raised (Exception "SyntaxError"), after_first_run request w)
        | Some src =>
            match second_run E request src h with
            | (Ok (v2, _), _) =>
                (Ok (inl {| result := loads_or_keep v2 (to_python E v) |}),
                 after_first_run request w ++ [EvGuest src])
            | (Raised e, Collect []) =>
                (Raised e, after_first_run request w ++ [EvGuest src])
            | (Raised e, Collect log) =>
                (Ok (inr (http_requests_of log)), after_first_run request w ++ [EvGuest src])
            | (Raised e, Cached _ _) =>
                (Raised (Exception "ReferenceError: __httpRequests is not defined"),
                 after_first_run request w ++ [EvGuest src])
            end
        end
      else (Ok (inl {| result := to_python E v |}), after_first_run request w)
  | (Raised e, Collect []) => (Raised e, after_first_run request w)
  | (_, Collect log) => (Ok (inr (http_requests_of log)), after_first_run request w)
  | (Ok _, Cached _ _) =>
      (Raised (Exception "ReferenceError: __httpRequests is not defined"),
       after_first_run request w)
  | (Raised e, Cached _ _) =>
      (Raised (Exception "ReferenceError: __httpRequests is not defined"),
       after_first_run request w)
  end.
Proof.
  unfold PythonFastapi.trace_pass, PythonFastapi.create_context_with_http_support,
    new_context, first_run, after_first_run, second_run.
  unfold mbind at 1, M_bind at 1. unfold mbind at 1, M_bind at 1.
  unfold emit at 1. unfold mret at 1, M_ret at 1.
  unfold mbind at 1, M_bind at 1. rewrite eval_code_unfold. simpl.
  destruct (run _ _) as [[[v h]|e] [log|ko res]]; simpl;
    unfold except_branch, read_http_requests; unfold_M; simpl;
    rewrite <- ?app_assoc; simpl; try reflexivity;
    destruct log; try reflexivity.
  destruct (is_JSObject (to_python E v)); [|reflexivity].
  unfold PythonFastapi.stringify_via_eval, eval_template, guest_eval. unfold_M.
  destruct (template_value _) as [src|]; simpl; [|reflexivity].
  destruct (run _ _) as [[[v2 h2]|e2] [log2|ko2 res2]]; simpl;
    rewrite <- ?app_assoc; simpl; try reflexivity.
  destruct log2; reflexivity.
Qed.

Lemma src_execute_code_unfold request w :
  code request ≠ EmptyString →
  SrcMain.execute_code E transport request w =
  match SrcMain.trace_pass E request w with
  | (Ok (inl response), w') => (Ok response, w')
  | (Ok (inr http_requests), w') => src_second_phase E transport request http_requests w'
  | (Raised e, w') => (Raised (execution_failed e), w')
  end.
Proof.
  intros Hcode. unfold SrcMain.execute_code, src_second_phase.
  destruct (decide _) as [|_]; [done|]. unfold_M.
  destruct (SrcMain.trace_pass E request w) as [[[response|http_requests]|e] w'];
    reflexivity.
Qed.

Lemma fastapi_execute_code_unfold request w :
  code request ≠ EmptyString →
  PythonFastapi.execute_code E transport request w =
  match PythonFastapi.trace_pass E request w with
  | (Ok (inl response), w') => (Ok response, w')
  | (Ok (inr http_requests), w') =>
      fastapi_second_phase E transport request http_requests w'
  | (Raised (Exception message), w') => (Raised (execution_failed (Exception message)), w')
  | (Raised e, w') => (Raised e, w')
  end.
Proof.
  intros Hcode. unfold PythonFastapi.execute_code, fastapi_second_phase.
  destruct (decide _) as [|_]; [done|]. unfold_M.
  destruct (PythonFastapi.trace_pass E request w) as [[[response|http_requests]|[]] w'];
    reflexivity.
Qed.
End first_pass_fastapi.

(* ===================================================================== *)
(** ** C4: a raise in the first pass *)
(* ===================================================================== *)



(* ===================================================================== *)
(** ** C3: the fast path *)
(* ===================================================================== *)




(* ===================================================================== *)
(** ** C10: the two services on a script without calls *)
(* ===================================================================== *)

Lemma plain_data_is_not_JSObject (v : json) : is_JSObject (PyData v) = false.
Proof. destruct v; reflexivity. Qed.

Lemma primitive_is_not_JSObject (E : Engine) (v : jsval) :
  primitive v → is_JSObject (to_python E v) = false.
Proof. destruct v; simpl; intros []; reflexivity. Qed.




(* ===================================================================== *)
(** ** The resolution phase *)
(* ===================================================================== *)

Lemma has_url_inv (req : json) :
  has_url req →
  ∃ kvs url, req = JObj kvs ∧ assoc "url" kvs = Some url
    ∧ py_getitem req "url" = Ok url
    ∧ fetch_args req = Some (url, default JNull (assoc "options" kvs))
    ∧ key_dict req = Ok (JObj [("url", url); ("options", default (JObj []) (assoc "options" kvs))]).
Proof.
  intros [url Hurl]. destruct req as [| | | | |kvs]; simpl in Hurl; try discriminate.
  exists kvs. unfold fetch_args, key_dict. simpl.
  destruct (assoc "url" kvs) as [u|]; [|discriminate].
  exists u. injection Hurl as <-. done.
Qed.

Lemma no_url_raises (req : json) :
  ¬ has_url req → ∃ e, py_getitem req "url" = Raised e.
Proof.
  intros Hno. destruct (py_getitem req "url") as [url|e] eqn:Hget; [|eauto].
  destruct Hno. by exists url.
Qed.

Lemma fetch_tasks_ok (transport : Transport) (reqs : list json) :
  Forall has_url reqs →
  ∃ tasks, fetch_tasks transport reqs = Ok tasks
    ∧ ∀ w, gather tasks w = (Ok (fetch_all transport w reqs).1, (fetch_all transport w reqs).2).
Proof.
  induction 1 as [|req rest Hreq _ (tasks & Htasks & Hgather)]; simpl.
  - exists []. done.
  - destruct (has_url_inv req Hreq) as (kvs & url & -> & Hassoc & Hget & Hargs & _).
    simpl in *. rewrite Hassoc, Htasks. eexists. split; [reflexivity|].
    intros w. simpl. rewrite perform_fetch_unfold.
    unfold fetch_one. rewrite Hargs.
    destruct (fetch_request _ _) as [rq|]; rewrite Hgather;
      destruct (fetch_all _ _ rest) as [envelopes w2]; reflexivity.
Qed.

Lemma fetch_tasks_raises (transport : Transport) (reqs : list json) :
  ¬ Forall has_url reqs → ∃ e, fetch_tasks transport reqs = Raised e.
Proof.
  induction reqs as [|req rest IH]; intros Hno.
  - destruct Hno. constructor.
  - simpl. destruct (py_getitem req "url") as [url|e] eqn:Hget; [|eauto].
    destruct (py_get req "options" JNull); [|eauto].
    destruct IH as [e ->]; [|eauto].
    intros Hrest. apply Hno. constructor; [by exists url|done].
Qed.

Lemma fetch_all_length (transport : Transport) (reqs : list json) (w : World) :
  length (fetch_all transport w reqs).1 = length reqs.
Proof.
  revert w. induction reqs as [|req rest IH]; intros w; simpl; [done|].
  destruct (fetch_one transport w req) as [envelope w1].
  specialize (IH w1). destruct (fetch_all transport w1 rest). simpl in *. by rewrite IH.
Qed.

Lemma fetch_all_world (transport : Transport) (reqs : list json) (w : World) :
  Forall has_url reqs →
  (fetch_all transport w reqs).2 = w ++ map EvRequest (omap sent_request reqs).
Proof.
  intros Hreqs. revert w.
  induction Hreqs as [|req rest Hreq _ IH]; intros w; simpl; [by rewrite app_nil_r|].
  destruct (has_url_inv req Hreq) as (kvs & url & -> & _ & _ & Hargs & _).
  unfold fetch_one, sent_request. rewrite Hargs. simpl.
  destruct (fetch_request _ _) as [rq|].
  - specialize (IH (w ++ [EvRequest rq])). destruct (fetch_all _ _ rest). simpl in *.
    rewrite IH, <- app_assoc. done.
  - specialize (IH w). destruct (fetch_all _ _ rest). simpl in *. done.
Qed.

Lemma results_map_ok (dumps : json → string) (pairs : list (json * json))
    (table : gmap string json) :
  Forall (λ pair, has_url pair.1) pairs →
  results_map dumps pairs table = Ok (foldl (store dumps) table pairs).
Proof.
  intros Hpairs. revert table.
  induction Hpairs as [|[req result] rest Hreq _ IH]; intros table; simpl; [done|].
  destruct (has_url_inv req Hreq) as (kvs & url & -> & _ & _ & _ & Hkey).
  rewrite Hkey, IH. do 2 f_equal.
  unfold store, request_key. simpl fst. by rewrite Hkey.
Qed.

Lemma store_fold_other (dumps : json → string) (pairs : list (json * json))
    (table : gmap string json) (key : string) :
  Forall (λ pair, request_key dumps pair.1 ≠ Some key) pairs →
  foldl (store dumps) table pairs !! key = table !! key.
Proof.
  intros Hpairs. revert table.
  induction Hpairs as [|pair rest Hpair _ IH]; intros table; simpl; [done|].
  rewrite IH. unfold store. destruct (request_key dumps pair.1) as [key'|]; [|done].
  apply lookup_insert_ne. congruence.
Qed.

(** The entry of a key is the envelope paired with the last request that has
    this key. *)
Lemma store_fold_last (dumps : json → string) (pairs : list (json * json))
    (table : gmap string json) (i : nat) (req envelope : json) (key : string) :
  pairs !! i = Some (req, envelope) →
  request_key dumps req = Some key →
  (∀ j pair, i < j → pairs !! j = Some pair → request_key dumps pair.1 ≠ Some key) →
  foldl (store dumps) table pairs !! key = Some envelope.
Proof.
  revert table i. induction pairs as [|pair rest IH]; intros table i Hi Hkey Hlater.
  - done.
  - destruct i as [|i]; simpl in *.
    + injection Hi as ->. rewrite store_fold_other.
      * unfold store. simpl. rewrite Hkey. apply lookup_insert_eq.
      * apply Forall_lookup. intros j pair' Hj. apply (Hlater (S j)); [lia|done].
    + apply (IH _ i); [done..|].
      intros j pair' Hij Hj. apply (Hlater (S j)); [lia|done].
Qed.

Lemma store_fold_is_Some (dumps : json → string) (pairs : list (json * json))
    (table : gmap string json) (key : string) :
  is_Some (foldl (store dumps) table pairs !! key) ↔
  is_Some (table !! key) ∨ ∃ pair, pair ∈ pairs ∧ request_key dumps pair.1 = Some key.
Proof.
  revert table. induction pairs as [|pair rest IH]; intros table; simpl.
  - split; [by left|]. intros [|(pair & Hin & _)]; [done|]. by apply elem_of_nil in Hin.
  - rewrite IH. unfold store at 1.
    destruct (request_key dumps pair.1) as [key'|] eqn:Hkey.
    + destruct (decide (key' = key)) as [->|Hne].
      * rewrite lookup_insert_eq. split; [|by eauto].
        intros _. right. exists pair. split; [left|done].
      * rewrite lookup_insert_ne by done. split.
        -- intros [|(pair' & Hin & Hk)]; [by left|]. right. exists pair'. split; [by right|done].
        -- intros [|(pair' & Hin & Hk)]; [by left|].
           apply elem_of_cons in Hin as [->|Hin]; [congruence|]. right. eauto.
    + split.
      * intros [|(pair' & Hin & Hk)]; [by left|]. right. exists pair'. split; [by right|done].
      * intros [|(pair' & Hin & Hk)]; [by left|].
        apply elem_of_cons in Hin as [->|Hin]; [congruence|]. right. eauto.
Qed.

Section resolution.
Context (transport : Transport) (dumps : json → string).
Implicit Types (reqs : list json) (w : World).

Lemma resolve_with_ok reqs w :
  Forall has_url reqs →
  resolve_with transport dumps reqs w =
    (Ok (foldl (store dumps) ∅ (zip reqs (fetch_all transport w reqs).1)),
     w ++ map EvRequest (omap sent_request reqs)).
Proof.
  intros Hreqs. unfold resolve_with. unfold_M.
  destruct (fetch_tasks_ok transport reqs Hreqs) as (tasks & -> & Hgather).
  rewrite Hgather, results_map_ok, fetch_all_world by
    (try done; apply Forall_forall; intros [req envelope] Hin;
     apply elem_of_zip_l in Hin; by eapply Forall_forall in Hreqs).
  done.
Qed.

Lemma resolve_with_raises reqs w :
  ¬ Forall has_url reqs → ∃ e, resolve_with transport dumps reqs w = (Raised e, w).
Proof.
  intros Hno. unfold resolve_with. unfold_M.
  destruct (fetch_tasks_raises transport reqs Hno) as [e ->]. eauto.
Qed.

Lemma has_url_key reqs req :
  Forall has_url reqs → req ∈ reqs → is_Some (request_key dumps req).
Proof.
  intros Hreqs Hin. eapply Forall_forall in Hreqs; [|done].
  destruct (has_url_inv req Hreqs) as (kvs & url & _ & _ & _ & _ & Hkey).
  unfold request_key. rewrite Hkey. eauto.
Qed.
End resolution.

Lemma store_fold_lookup_inv (dumps : json → string) (pairs : list (json * json))
    (table : gmap string json) (key : string) (envelope : json) :
  foldl (store dumps) table pairs !! key = Some envelope →
  table !! key = Some envelope
  ∨ ∃ j req, pairs !! j = Some (req, envelope) ∧ request_key dumps req = Some key.
Proof.
  revert table. induction pairs as [|[req result] rest IH]; intros table; simpl; [by left|].
  intros Hlookup. apply IH in Hlookup as [Hhere|(j & req' & Hj & Hkey)].
  - unfold store in Hhere. simpl in Hhere.
    destruct (request_key dumps req) as [key'|] eqn:Hkey; [|by left].
    destruct (decide (key' = key)) as [->|Hne].
    + rewrite lookup_insert_eq in Hhere. injection Hhere as ->.
      right. exists 0, req. done.
    + rewrite lookup_insert_ne in Hhere by done. by left.
  - right. exists (S j), req'. done.
Qed.

Lemma Forall_has_url_dec (reqs : list json) : Decision (Forall has_url reqs).
Proof.
  apply Forall_dec. intros req. unfold has_url.
  destruct (py_getitem req "url") as [url|e].
  - left. eauto.
  - right. intros [url [=]].
Qed.

Lemma resolve_with_complete (transport : Transport) (dumps : json → string)
    (reqs : list json) (w : World) :
  resolution_complete transport dumps (resolve_with transport dumps) reqs w.
Proof.
  split.
  - split.
    + intros Hreqs. rewrite resolve_with_ok by done. eauto.
    + intros (table & w' & Hrun).
      destruct (Forall_has_url_dec reqs) as [|Hno]; [done|].
      destruct (resolve_with_raises transport dumps reqs w Hno) as [e He]. congruence.
  - intros table w' Hrun.
    destruct (Forall_has_url_dec reqs) as [Hreqs|Hno]; last first.
    { destruct (resolve_with_raises transport dumps reqs w Hno) as [e He]. congruence. }
    rewrite resolve_with_ok in Hrun by done. injection Hrun as <- <-.
    destruct (fetch_tasks_ok transport reqs Hreqs) as (tasks & Htasks & Hgather).
    exists tasks, (fetch_all transport w reqs).1.
    split; [done|]. split; [by rewrite Hgather, fetch_all_world|].
    split; [apply fetch_all_length|]. split; [done|].
    split; [|split; [|apply NoDup_fst_map_to_list]].
    + intros key envelope Hlookup.
      apply store_fold_lookup_inv in Hlookup as [Hempty|(j & req & Hj & Hkey)].
      { by rewrite lookup_empty in Hempty. }
      apply lookup_zip_Some in Hj as [Hreq Henv]. eauto.
    + intros req Hin.
      destruct (has_url_key dumps reqs req Hreqs Hin) as [key Hkey].
      exists key. split; [done|]. apply store_fold_is_Some. right.
      apply list_elem_of_lookup in Hin as [i Hi].
      assert (i < length (fetch_all transport w reqs).1) as Hlt.
      { rewrite fetch_all_length. by eapply lookup_lt_Some. }
      apply lookup_lt_is_Some in Hlt as [envelope Henv].
      exists (req, envelope). split; [|done].
      apply list_elem_of_lookup. exists i. by apply lookup_zip_Some.
Qed.

(* ===================================================================== *)
(** ** C7: the resolution phase runs every call and keys every envelope *)
(* ===================================================================== *)

(** C7.  In both services the resolution phase returns exactly when every
    traced request has its [url]; it returns after every coroutine has
    produced its envelope, a transport failure of one call not stopping the
    others; the table holds one envelope under each key, each the envelope
    of a traced request with that key, and the key of every traced request
    is in the table. *)
Theorem C7_resolution_complete (transport : Transport) (reqs : list json) (w : World) :
  resolution_complete transport SrcMain.results_key (SrcMain.resolve transport) reqs w
  ∧ resolution_complete transport PythonFastapi.results_key
      (PythonFastapi.resolve transport) reqs w.
Proof. split; apply resolve_with_complete. Qed.

(* ===================================================================== *)
(** ** C1: repeated calls *)
(* ===================================================================== *)

Lemma omap_all_Some {A B} (f : A → option B) (l : list A) :
  Forall (λ x, is_Some (f x)) l → length (omap f l) = length l.
Proof.
  induction 1 as [|x l [y Hy] _ IH]; [done|].
  change (omap f (x :: l)) with (match f x with Some y => y :: omap f l | None => omap f l end).
  rewrite Hy. simpl. by f_equal.
Qed.

Lemma resolve_with_dispatch (transport : Transport) (dumps : json → string)
    (key_object : jsval → jsval → jsval) (reqs : list json) (w : World) :
  Forall has_url reqs →
  dispatch_per_call transport dumps (resolve_with transport dumps) key_object reqs w.
Proof.
  intros Hreqs.
  destruct (fetch_tasks_ok transport reqs Hreqs) as (tasks & Htasks & Hgather).
  exists tasks, (fetch_all transport w reqs).1,
    (foldl (store dumps) ∅ (zip reqs (fetch_all transport w reqs).1)).
  split; [done|]. split; [by rewrite Hgather, fetch_all_world|].
  split; [by apply resolve_with_ok|]. split; [apply omap_all_Some|].
  split; [|split].
  - intros i req key Hi Hkey Hlater.
    assert (i < length (fetch_all transport w reqs).1) as Hlt.
    { rewrite fetch_all_length. by eapply lookup_lt_Some. }
    apply lookup_lt_is_Some in Hlt as [envelope Henv]. rewrite Henv.
    apply (store_fold_last dumps _ _ i req); [by apply lookup_zip_Some|done|].
    intros j [req' envelope'] Hij Hj. apply lookup_zip_Some in Hj as [Hj _].
    simpl. by eapply Hlater.
  - reflexivity.
  - intros url options url' options' Hsame. unfold cached_result. by rewrite Hsame.
Qed.




(* ===================================================================== *)
(** ** C8: the same request twice *)
(* ===================================================================== *)

Lemma blind_mret {A} (a : A) : world_blind (mret a).
Proof. done. Qed.

Lemma blind_raise {A} (e : exn) : world_blind (@raise A e).
Proof. done. Qed.

Lemma blind_lift {A} (r : outcome A) : world_blind (lift r).
Proof. done. Qed.

Lemma blind_emit (e : Event) : world_blind (emit e).
Proof. done. Qed.

Lemma blind_bind {A B} (m : M A) (f : A → M B) :
  world_blind m → (∀ a, world_blind (f a)) → world_blind (m ≫= f).
Proof.
  intros Hm Hf w1 w2. specialize (Hm w1 w2). unfold_M.
  destruct (m w1) as [[a1|e1] w1'], (m w2) as [[a2|e2] w2']; simpl in *; try congruence.
  injection Hm as <-. apply Hf.
Qed.

Lemma blind_try_except {A} (m : M A) (h : exn → M A) :
  world_blind m → (∀ e, world_blind (h e)) → world_blind (try_except m h).
Proof.
  intros Hm Hh w1 w2. specialize (Hm w1 w2). unfold_M.
  destruct (m w1) as [[a1|e1] w1'], (m w2) as [[a2|e2] w2']; simpl in *; try congruence.
  injection Hm as <-. apply Hh.
Qed.

Lemma blind_gather {A} (tasks : list (M A)) :
  Forall world_blind tasks → world_blind (gather tasks).
Proof.
  induction 1 as [|t ts Ht _ IH]; intros w1 w2; simpl; [done|].
  specialize (Ht w1 w2).
  destruct (t w1) as [r1 w1'], (t w2) as [r2 w2']. simpl in Ht. subst r2.
  specialize (IH w1' w2').
  destruct (gather ts w1') as [rs1 w1''], (gather ts w2') as [rs2 w2'']. simpl in *.
  by subst rs2.
Qed.

Lemma blind_perform_fetch (transport : Transport) (url options : json) :
  constant_transport transport → world_blind (perform_fetch transport url options).
Proof.
  intros Hconst w1 w2. rewrite !perform_fetch_unfold.
  destruct (fetch_request url options) as [rq|]; simpl; [|done].
  by rewrite (Hconst w1 w2).
Qed.

Lemma blind_fetch_tasks (transport : Transport) (reqs : list json) (tasks : list (M json)) :
  constant_transport transport →
  fetch_tasks transport reqs = Ok tasks → Forall world_blind tasks.
Proof.
  intros Hconst. revert tasks. induction reqs as [|req rest IH]; intros tasks; simpl.
  - intros [= <-]. constructor.
  - destruct (py_getitem req "url") as [url|]; [|done].
    destruct (py_get req "options" JNull) as [options|]; [|done].
    destruct (fetch_tasks transport rest) as [tasks'|]; [|done].
    intros [= <-]. constructor; [by apply blind_perform_fetch|by apply IH].
Qed.

Ltac blind_step :=
  first
    [ apply blind_mret | apply blind_raise | apply blind_lift | apply blind_emit
    | apply blind_bind; [|intros ?]
    | apply blind_try_except; [|intros ?]
    | match goal with
      | |- world_blind (match ?x with _ => _ end) => destruct x
      | |- world_blind (if ?x then _ else _) => destruct x
      end ].

Lemma blind_guest_eval {E : Engine} (ctx : MiniRacer E) (src : string) :
  world_blind (guest_eval ctx src).
Proof. unfold guest_eval. repeat blind_step. Qed.

Lemma blind_eval_code {E : Engine} (ctx : MiniRacer E) (src : string) :
  world_blind (eval_code ctx src).
Proof.
  unfold eval_code. apply blind_bind; [apply blind_guest_eval|].
  intros ?. repeat blind_step.
Qed.

Lemma blind_new_context {E : Engine} (i : json) (names : list string) (ic : Interception) :
  world_blind (new_context (E:=E) i names ic).
Proof. unfold new_context. repeat blind_step. Qed.

Lemma blind_except_branch {E : Engine} (ctx : MiniRacer E) (e : exn) :
  world_blind (except_branch ctx e).
Proof. unfold except_branch. repeat blind_step. Qed.

Lemma blind_stringify_via_eval {E : Engine} (ctx : MiniRacer E) (src : string) (r : pyval) :
  world_blind (PythonFastapi.stringify_via_eval E ctx src r).
Proof.
  unfold PythonFastapi.stringify_via_eval, eval_template.
  apply blind_bind; [|intros ?; repeat blind_step].
  destruct (template_value _); [apply blind_guest_eval|apply blind_mret].
Qed.

Lemma blind_bind_lift {A B} (r : outcome A) (f : A → M B) :
  (∀ a, r = Ok a → world_blind (f a)) → world_blind (lift r ≫= f).
Proof.
  intros Hf w1 w2. unfold_M. destruct r as [a|e]; [|done]. by apply Hf.
Qed.

Lemma blind_resolve_with (transport : Transport) (dumps : json → string) (reqs : list json) :
  constant_transport transport → world_blind (resolve_with transport dumps reqs).
Proof.
  intros Hconst. unfold resolve_with.
  apply blind_bind_lift. intros tasks Htasks.
  apply blind_bind; [|intros ?; apply blind_lift].
  apply blind_gather. by eapply blind_fetch_tasks.
Qed.

Section same_result.
Context (E : Engine) (transport : Transport) (Hconst : constant_transport transport).
Implicit Types (request : ExecuteRequest).

Lemma blind_src_execute_code request : world_blind (SrcMain.execute_code E transport request).
Proof.
  unfold SrcMain.execute_code. destruct (decide _); [apply blind_raise|].
  apply blind_try_except; [|intros ?; apply blind_raise].
  apply blind_bind.
  - unfold SrcMain.trace_pass, SrcMain.create_context_with_http_support.
    apply blind_bind; [apply blind_new_context|]. intros ctx.
    apply blind_bind; [apply blind_eval_code|]. intros [r ctx'].
    destruct r; [destruct (read_http_requests ctx') as [[|]|]|];
      first [apply blind_except_branch | apply blind_mret].
  - intros [response|http_requests]; [apply blind_mret|].
    apply blind_bind; [by apply blind_resolve_with|]. intros http_results.
    unfold SrcMain.replay_pass, SrcMain.create_context_with_http_support.
    apply blind_bind; [apply blind_new_context|]. intros ctx.
    apply blind_bind; [apply blind_eval_code|]. intros [r ctx'].
    repeat blind_step.
Qed.

Lemma blind_fastapi_execute_code request :
  world_blind (PythonFastapi.execute_code E transport request).
Proof.
  unfold PythonFastapi.execute_code. destruct (decide _); [apply blind_raise|].
  apply blind_try_except; [|intros []; apply blind_raise].
  apply blind_bind.
  - unfold PythonFastapi.trace_pass, PythonFastapi.create_context_with_http_support.
    apply blind_bind; [apply blind_new_context|]. intros ctx.
    apply blind_bind; [apply blind_eval_code|]. intros [r ctx'].
    destruct r as [res|]; [destruct (read_http_requests ctx') as [[|]|]|];
      try first [apply blind_except_branch | apply blind_mret].
    destruct (is_JSObject res); [|apply blind_mret].
    apply blind_bind; [apply blind_stringify_via_eval|]. intros [r2 ctx2].
    destruct r2; first [apply blind_except_branch | apply blind_mret].
  - intros [response|http_requests]; [apply blind_mret|].
    apply blind_bind; [by apply blind_resolve_with|]. intros http_results.
    unfold PythonFastapi.replay_pass, PythonFastapi.create_context_with_http_support.
    apply blind_bind; [apply blind_new_context|]. intros ctx.
    apply blind_bind; [apply blind_eval_code|]. intros [r ctx'].
    apply blind_bind; [apply blind_lift|]. intros res.
    destruct (is_JSObject res); [|apply blind_mret].
    apply blind_bind; [apply blind_stringify_via_eval|]. intros [r2 ctx2].
    repeat blind_step.
Qed.
End same_result.



(** The condition on the transport is needed: a server that counts its
    requests answers the second run differently. *)
Example counting_transport_differs :
  let request := {| code := Samples.one_call; inputs := JObj [] |} in
  (PythonFastapi.execute_code Samples.sample_engine Samples.counting request
     (PythonFastapi.execute_code Samples.sample_engine Samples.counting request []).2).1
  ≠ (PythonFastapi.execute_code Samples.sample_engine Samples.counting request []).1.
Proof. vm_compute. discriminate. Qed.

(* ===================================================================== *)
(** ** C9: the second evaluation of [python-fastapi] *)
(* ===================================================================== *)

Lemma string_app_cons (c : ascii) (s1 s2 : string) :
  String c s1 +:+ s2 = String c (s1 +:+ s2).
Proof. reflexivity. Qed.

Lemma string_app_nil_l (s : string) : EmptyString +:+ s = s.
Proof. reflexivity. Qed.

Lemma string_app_assoc (s1 s2 s3 : string) : (s1 +:+ s2) +:+ s3 = s1 +:+ (s2 +:+ s3).
Proof.
  induction s1 as [|c s1 IH]; [done|]. by rewrite !string_app_cons, IH.
Qed.

Lemma str_replace_cons (old : ascii) (new : string) (c : ascii) (s : string) :
  str_replace old new (String c s)
  = (if decide (c = old) then new else str1 c) +:+ str_replace old new s.
Proof. reflexivity. Qed.

Lemma str_replace_app (old : ascii) (new s1 s2 : string) :
  str_replace old new (s1 +:+ s2) = str_replace old new s1 +:+ str_replace old new s2.
Proof.
  induction s1 as [|c s1 IH]; [done|].
  by rewrite string_app_cons, !str_replace_cons, IH, string_app_assoc.
Qed.

Lemma template_value_from_cons (st : TState) (c : ascii) (s : string) :
  template_value_from st (String c s)
  = ('(out, st') ← template_step st c;
     tail ← template_value_from st' s;
     Some (out +:+ tail)).
Proof. reflexivity. Qed.

Lemma plain_step_plain (c : ascii) :
  c ≠ BACKSLASH → c ≠ CH_CR → c ≠ BACKTICK → c ≠ DOLLAR →
  plain_step c = Some (str1 c, TPlain).
Proof.
  intros H1 H2 H3 H4. unfold plain_step. by repeat (destruct (decide _); [done|]).
Qed.

Lemma template_value_from_escaped (c : ascii) (s : string) :
  c = BACKTICK ∨ c = DOLLAR →
  template_value_from TPlain (String BACKSLASH (String c s))
  = (tail ← template_value_from TPlain s; Some (String c tail)).
Proof.
  intros [-> | ->]; rewrite !template_value_from_cons.
  - change (template_step TPlain BACKSLASH) with (Some (EmptyString, TEscape)).
    change (template_step TEscape BACKTICK) with (Some (str1 BACKTICK, TPlain)).
    simpl. by destruct (template_value_from TPlain s).
  - change (template_step TPlain BACKSLASH) with (Some (EmptyString, TEscape)).
    change (template_step TEscape DOLLAR) with (Some (str1 DOLLAR, TPlain)).
    simpl. by destruct (template_value_from TPlain s).
Qed.

Lemma template_value_from_plain (c : ascii) (s : string) :
  c ≠ BACKSLASH → c ≠ CH_CR → c ≠ BACKTICK → c ≠ DOLLAR →
  template_value_from TPlain (String c s)
  = (tail ← template_value_from TPlain s; Some (String c tail)).
Proof.
  intros H1 H2 H3 H4. rewrite template_value_from_cons.
  change (template_step TPlain c) with (plain_step c).
  rewrite plain_step_plain by done. simpl.
  by destruct (template_value_from TPlain s).
Qed.

(** On a code without backslash and without carriage return the escaping
    does what it is there for: the template literal denotes the code. *)
Lemma template_value_escaped_code (code : string) :
  (∀ c, c ∈ String.list_ascii_of_string code → c ≠ BACKSLASH ∧ c ≠ CH_CR) →
  template_value (escaped_code code) = Some code.
Proof.
  unfold template_value, escaped_code.
  induction code as [|c code IH]; intros Hcode; [done|].
  destruct (Hcode c) as [Hbs Hcr]; [simpl; left|].
  assert (template_value_from TPlain
            (str_replace DOLLAR (short_escape DOLLAR)
               (str_replace BACKTICK (short_escape BACKTICK) code)) = Some code) as IH'.
  { apply IH. intros c' Hc'. apply Hcode. simpl. by right. }
  rewrite str_replace_cons, str_replace_app.
  destruct (decide (c = BACKTICK)) as [->|Hbt].
  { change (str_replace DOLLAR (short_escape DOLLAR) (short_escape BACKTICK))
      with (short_escape BACKTICK).
    unfold short_escape, str1 in *. rewrite !string_app_cons, string_app_nil_l.
    rewrite template_value_from_escaped by (by left). by rewrite IH'. }
  destruct (decide (c = DOLLAR)) as [->|Hdl].
  { change (str_replace DOLLAR (short_escape DOLLAR) (str1 DOLLAR))
      with (short_escape DOLLAR).
    unfold short_escape, str1 in *. rewrite !string_app_cons, string_app_nil_l.
    rewrite template_value_from_escaped by (by right). by rewrite IH'. }
  unfold str1 at 1. rewrite str_replace_cons.
  destruct (decide (c = DOLLAR)); [done|].
  change (str_replace DOLLAR (short_escape DOLLAR) EmptyString) with EmptyString.
  unfold short_escape, str1 in *. rewrite !string_app_cons, !string_app_nil_l.
  rewrite template_value_from_plain by done. by rewrite IH'.
Qed.

(** C9 fails at a code with a backslash.  The text [({s:'a\nb'})]
    evaluates to an object; the escaping leaves it as it is, the template
    literal turns backslash n into a line break, and the text that [eval]
    receives is not the guest code: it has a line break inside the string
    literal, [eval] throws, and the request that the first evaluation had
    answered fails with status 500. *)
Theorem C9_backslash_not_escaped :
  let request := {| code := Samples.object_with_escape; inputs := JObj [] |} in
  first_run Samples.sample_engine PythonFastapi.interception_names request
    = (Ok (JSObj [("s", JSStr ("a" +:+ str1 CH_LF +:+ "b"))], tt), Collect [])
  ∧ escaped_code (code request) = code request
  ∧ template_value (escaped_code (code request)) = Some Samples.object_with_newline
  ∧ Samples.object_with_newline ≠ code request
  ∧ PythonFastapi.execute_code Samples.sample_engine Samples.always_created request []
    = (Raised (HTTPException 500
                 (JObj [("error", JStr "Execution failed");
                        ("message", JStr "SyntaxError: Invalid or unexpected token")])),
       [EvContext; EvGuest Samples.object_with_escape; EvGuest Samples.object_with_newline]).
Proof. repeat split. vm_compute. discriminate. Qed.

(* ===================================================================== *)
(** ** C2: the key written and the key looked up *)
(* ===================================================================== *)

Lemma pretty_N_go_head (x : N) (s : string) :
  (0 < x)%N ∨ starts_without_space s → starts_without_space (pretty_N_go x s).
Proof.
  revert s. induction (N.lt_wf_0 x) as [x _ IH]; intros s Hs.
  assert (x = 0 ∨ 0 < x)%N as [->|Hpos] by lia.
  - rewrite pretty_N_go_0. destruct Hs as [Hs|Hs]; [lia|done].
  - rewrite pretty_N_go_step by done. apply IH; [by apply N.div_lt|].
    right. simpl. unfold pretty_N_char. by repeat case_match.
Qed.

Lemma pretty_Z_head (n : Z) : starts_without_space (pretty n).
Proof.
  destruct n as [|p|p]; unfold pretty, pretty_Z; simpl; [done|..].
  - unfold pretty, pretty_positive, pretty, pretty_N.
    destruct (decide _); [done|]. apply pretty_N_go_head. left. lia.
  - done.
Qed.

Lemma JSON_stringify_head (v : jsval) (text : string) :
  JSON_stringify v = Some text → starts_without_space text.
Proof.
  destruct v as [| |[]|n|s| |xs|props]; simpl; intros [= <-]; try done.
  apply pretty_Z_head.
Qed.

Lemma src_keys_differ (d : json) (req : json) (url options : jsval) :
  key_dict req = Ok d →
  JSON_stringify (SrcMain.key_object url options) ≠ Some (SrcMain.results_key d).
Proof.
  unfold key_dict. destruct (py_getitem req "url") as [u|]; [|done].
  destruct (py_get req "options" (JObj [])) as [o|]; [|done].
  intros [= <-]. unfold SrcMain.key_object, SrcMain.results_key, json_dumps.
  assert (∃ tail, json_dumps_with false ", " ": " (JObj [("url", u); ("options", o)])
                  = String "{" (String DQUOTE (String "u" (String "r" (String "l"
                      (String DQUOTE (String ":" (String " " tail)))))))) as [tailR ->].
  { eexists. reflexivity. }
  simpl.
  destruct (JSON_stringify url) as [text|] eqn:Hurl.
  - apply JSON_stringify_head in Hurl. destruct text as [|c text]; [done|].
    simpl in Hurl.
    destruct (stringify_property ("options", JSON_stringify (js_or options (JSObj []))))
      as [y|]; intros [= Hc]; by subst c.
  - destruct (JSON_stringify (js_or options (JSObj []))) as [text|]; simpl; intros [=].
Qed.

(** In [src/main.py] the table is written under [json.dumps] with its
    default separators, which put a space after the colon, and read under
    [JSON.stringify], which puts none: no call of the second pass finds its
    envelope. *)
Lemma src_lookup_misses (transport : Transport) (reqs : list json) (w w' : World)
    (table : gmap string json) (url options : jsval) :
  SrcMain.resolve transport reqs w = (Ok table, w') →
  cached_result table (SrcMain.key_object url options) = JSUndefined.
Proof.
  intros Hrun. unfold cached_result.
  destruct (JSON_stringify (SrcMain.key_object url options)) as [text|] eqn:Htext;
    [|done].
  simpl default. destruct (table !! text) as [envelope|] eqn:Hlookup; [|done].
  destruct (resolve_with_complete transport SrcMain.results_key reqs w) as [_ Hcomplete].
  destruct (Hcomplete table w' Hrun)
    as (tasks & envelopes & _ & _ & _ & _ & Hentries & _ & _).
  destruct (Hentries text envelope Hlookup) as (j & req & _ & Hkey & _).
  unfold request_key in Hkey. destruct (key_dict req) as [d|] eqn:Hd; [|done].
  injection Hkey as <-. by destruct (src_keys_differ d req url options Hd).
Qed.

(** C2 fails in both services.  In [src/main.py] the two encodings differ in
    their separators, so that no lookup ever finds the key that was written.
    In [python-fastapi] the key is written with sorted keys and looked up in
    insertion order: for the POST call of the repository's own test, whose
    options are [method], [headers], [body] in this order, the two keys
    differ, the lookup misses, and the request fails although the transport
    answered. *)
Theorem C2_lookup_key_differs :
  (∀ (transport : Transport) reqs w w' table url options,
      SrcMain.resolve transport reqs w = (Ok table, w') →
      cached_result table (SrcMain.key_object url options) = JSUndefined)
  ∧ let url := JSStr "http://wiremock:8080/api/data" in
    let request := {| code := Samples.post_call; inputs := JObj [] |} in
    map (request_key PythonFastapi.results_key)
        (http_requests_of [request_record url Samples.post_options])
      = [Some (dq "{'options':{'body':'{\'test\':true}','headers':{'Content-Type':'application/json'},'method':'POST'},'url':'http://wiremock:8080/api/data'}")]
    ∧ JSON_stringify (PythonFastapi.key_object url Samples.post_options)
      = Some (dq "{'options':{'method':'POST','headers':{'Content-Type':'application/json'},'body':'{\'test\':true}'},'url':'http://wiremock:8080/api/data'}")
    ∧ PythonFastapi.execute_code Samples.sample_engine Samples.always_created request []
      = (Raised (HTTPException 500
                   (JObj [("error", JStr "Execution failed");
                          ("message",
                           JStr "TypeError: Cannot read properties of undefined (reading 'data')")])),
         [EvContext; EvGuest Samples.post_call;
          EvRequest {| rq_method := JStr "POST";
                       rq_url := JStr "http://wiremock:8080/api/data";
                       rq_headers := JObj [("Content-Type", JStr "application/json")];
                       rq_content := JStr (dq "{'test':true}") |};
          EvContext; EvGuest Samples.post_call]).
Proof.
  split; [intros; by eapply src_lookup_misses|].
  repeat split.
Qed.

(* ===================================================================== *)
(** ** Where the keys of [python-fastapi] agree *)
(* ===================================================================== *)

Lemma escape_char_agree (c : ascii) : plain_char c → py_escape_char c = js_escape_char c.
Proof.
  unfold plain_char.
  destruct c as [[] [] [] [] [] [] [] []]; vm_compute; try reflexivity; intros H; by destruct H.
Qed.

Lemma escape_with_agree (s : string) :
  plain_string s → escape_with py_escape_char s = escape_with js_escape_char s.
Proof.
  unfold plain_string. induction s as [|c s IH]; simpl; [done|].
  intros [Hc Hs]%Forall_cons. by rewrite escape_char_agree, IH.
Qed.

Lemma encode_string_agree (s : string) :
  plain_string s → py_encode_basestring_ascii s = QuoteJSONString s.
Proof.
  intros Hs. unfold py_encode_basestring_ascii, QuoteJSONString.
  by rewrite escape_with_agree.
Qed.

Global Instance key_le_trans {A} : Transitive (@key_le A).
Proof. intros a b c. unfold key_le. apply transitivity. Qed.

Global Instance key_le_total {A} : Total (@key_le A).
Proof. intros a b. unfold key_le. apply total, _. Qed.

Lemma StronglySorted_keys {A} (l : list (string * A)) :
  StronglySorted String.le l.*1 → StronglySorted key_le l.
Proof.
  induction l as [|[k a] l IH]; simpl; [constructor|].
  intros [Hl Hk]%StronglySorted_inv. constructor; [by apply IH|].
  rewrite Forall_fmap in Hk. eapply Forall_impl; [exact Hk|]. by intros [k' a'].
Qed.

Lemma NoDup_keys_eq {A} (l : list (string * A)) (x y : string * A) :
  NoDup l.*1 → x ∈ l → y ∈ l → x.1 = y.1 → x = y.
Proof.
  induction l as [|z l IH]; simpl; [by intros _ ?%elem_of_nil|].
  intros [Hz Hl]%NoDup_cons [->|Hx]%elem_of_cons [->|Hy]%elem_of_cons Hxy; [done|..].
  - destruct Hz. rewrite Hxy. by apply list_elem_of_fmap_2.
  - destruct Hz. rewrite <- Hxy. by apply list_elem_of_fmap_2.
  - by apply IH.
Qed.

Lemma sorted_items_sorted {A} (l : list (string * A)) :
  StronglySorted String.le l.*1 → NoDup l.*1 → sorted_items l = l.
Proof.
  intros Hsorted Hnodup. unfold sorted_items.
  apply (StronglySorted_unique_strong key_le).
  - intros x y Hx Hy Hxy Hyx.
    apply (NoDup_keys_eq l); [done| |done|].
    + by rewrite <- (merge_sort_Permutation key_le l).
    + unfold key_le in *. by apply (anti_symm String.le).
  - apply StronglySorted_merge_sort; apply _.
  - by apply StronglySorted_keys.
  - apply merge_sort_Permutation.
Qed.

Lemma stringify_to_json_None (v : jsval) :
  JSON_stringify v = None ↔ js_to_json v = None.
Proof. destruct v as [| |[]| | | | |]; simpl; split; congruence. Qed.

Lemma omap_cons_Some {A B} (f : A → option B) (x : A) (y : B) (l : list A) :
  f x = Some y → omap f (x :: l) = y :: omap f l.
Proof. intros H. change (omap f (x :: l)) with (match f x with Some y => y :: omap f l | None => omap f l end). by rewrite H. Qed.

Lemma canonical_items (props : list (string * jsval)) :
  Forall (λ kv, plain_string kv.1
                ∧ ∃ j, js_to_json kv.2 = Some j
                       ∧ JSON_stringify kv.2 = Some (json_dumps_sorted_compact j)) props →
  (omap (λ kv : string * option json, pair kv.1 <$> kv.2)
        (map (λ kv, (kv.1, js_to_json kv.2)) props)).*1 = props.*1
  ∧ map (dumps_item ":")
        (map (λ kv, (kv.1, json_dumps_sorted_compact kv.2))
           (omap (λ kv : string * option json, pair kv.1 <$> kv.2)
                 (map (λ kv, (kv.1, js_to_json kv.2)) props)))
    = omap stringify_property (map (λ kv, (kv.1, JSON_stringify kv.2)) props).
Proof.
  induction 1 as [|[k v] props (Hk & j & Hj & Hv) _ [IH1 IH2]]; [done|].
  simpl in Hk, Hj, Hv. rewrite !map_cons.
  rewrite (omap_cons_Some _ _ (k, j)) by (simpl; by rewrite Hj).
  rewrite (omap_cons_Some stringify_property _
             (QuoteJSONString k +:+ ":" +:+ json_dumps_sorted_compact j))
    by (unfold stringify_property; simpl; by rewrite Hv).
  rewrite fmap_cons, !map_cons, IH1, IH2. split; [done|].
  f_equal. unfold dumps_item. simpl. simpl in Hk. by rewrite encode_string_agree.
Qed.

Lemma dumps_sorted_arr (xs : list json) :
  json_dumps_sorted_compact (JArr xs)
  = "[" +:+ join "," (map json_dumps_sorted_compact xs) +:+ "]".
Proof. reflexivity. Qed.

Lemma dumps_sorted_obj (kvs : list (string * json)) :
  json_dumps_sorted_compact (JObj kvs)
  = "{" +:+ join "," (map (dumps_item ":")
                        (sorted_items (map (λ kv, (kv.1, json_dumps_sorted_compact kv.2)) kvs)))
    +:+ "}".
Proof. reflexivity. Qed.

Lemma stringify_arr (xs : list jsval) :
  JSON_stringify (JSArr xs)
  = Some ("[" +:+ join "," (map (λ x, default "null" (JSON_stringify x)) xs) +:+ "]").
Proof. reflexivity. Qed.

Lemma stringify_obj (props : list (string * jsval)) :
  JSON_stringify (JSObj props)
  = Some ("{" +:+ join "," (omap stringify_property
                             (map (λ kv, (kv.1, JSON_stringify kv.2)) props)) +:+ "}").
Proof. reflexivity. Qed.

Lemma canonical_prints_alike (v : jsval) (j : json) :
  canonical v → js_to_json v = Some j →
  JSON_stringify v = Some (json_dumps_sorted_compact j).
Proof.
  revert j. induction v as [| |b|n|s| |xs IH|props IH] using jsval_ind;
    intros j Hcan Hj; simpl in Hj; try (by injection Hj as <-); try done.
  - injection Hj as <-. by destruct b.
  - injection Hj as <-. simpl. f_equal. symmetry. by apply encode_string_agree.
  - injection Hj as <-. rewrite stringify_arr, dumps_sorted_arr. do 4 f_equal.
    induction IH as [|x xs Hx _ IHxs]; [done|]. destruct Hcan as [Hcx Hcxs].
    rewrite !map_cons, <- IHxs by done. f_equal.
    destruct (js_to_json x) as [jx|] eqn:Hjx; simpl.
    + by rewrite (Hx jx).
    + apply stringify_to_json_None in Hjx. by rewrite Hjx.
  - injection Hj as <-. destruct Hcan as (Hsorted & Hnodup & Hprops).
    assert (Forall (λ kv, plain_string kv.1
                          ∧ ∃ j, js_to_json kv.2 = Some j
                                 ∧ JSON_stringify kv.2 = Some (json_dumps_sorted_compact j))
              props) as Hitems.
    { clear Hsorted Hnodup. induction IH as [|[k v] props Hv _ IHprops]; [constructor|].
      destruct Hprops as [(Hk & [jv Hjv] & Hcv) Hrest]. constructor; [|by apply IHprops].
      split; [done|]. exists jv. split; [done|]. by apply Hv. }
    destruct (canonical_items props Hitems) as [Hkeys Hprint].
    rewrite stringify_obj, dumps_sorted_obj, <- Hprint. do 5 f_equal.
    symmetry. apply sorted_items_sorted; rewrite <- list_fmap_compose;
      (erewrite list_fmap_ext; [rewrite Hkeys|by intros ? []]); done.
Qed.

(** In [python-fastapi], a call whose target and options print alike is
    looked up under the key it was stored under. *)
Lemma fastapi_keys_agree (url options : jsval) :
  is_Some (js_to_json url) → canonical url →
  is_Some (js_to_json (js_or options (JSObj []))) → canonical (js_or options (JSObj [])) →
  map (request_key PythonFastapi.results_key)
      (http_requests_of [request_record url options])
  = [JSON_stringify (PythonFastapi.key_object url options)].
Proof.
  intros [ju Hju] Hcu [jo Hjo] Hco.
  unfold http_requests_of, request_record, PythonFastapi.key_object.
  simpl map. unfold js_to_json at 1; fold js_to_json. simpl map.
  rewrite Hju, Hjo.
  rewrite stringify_obj. simpl map.
  rewrite (canonical_prints_alike _ _ Hcu Hju), (canonical_prints_alike _ _ Hco Hjo).
  reflexivity.
Qed.

(** So a call of the second pass that was traced in the first, and whose
    target and options print alike, finds an envelope. *)
Lemma fastapi_lookup_hits (transport : Transport) (log : list jsval) (w w' : World)
    (table : gmap string json) (url options : jsval) :
  PythonFastapi.resolve transport (http_requests_of log) w = (Ok table, w') →
  request_record url options ∈ log →
  is_Some (js_to_json url) → canonical url →
  is_Some (js_to_json (js_or options (JSObj []))) → canonical (js_or options (JSObj [])) →
  ∃ envelope,
    cached_result table (PythonFastapi.key_object url options) = json_to_js envelope.
Proof.
  intros Hrun Hin Hju Hcu Hjo Hco.
  destruct (resolve_with_complete transport PythonFastapi.results_key
              (http_requests_of log) w) as [_ Hcomplete].
  destruct (Hcomplete table w' Hrun)
    as (tasks & envelopes & _ & _ & _ & _ & _ & Hkeys & _).
  destruct (Hkeys (default JNull (js_to_json (request_record url options))))
    as (key & Hkey & [envelope Hlookup]).
  { unfold http_requests_of.
    by apply (list_elem_of_fmap_2 (λ x, default JNull (js_to_json x))). }
  pose proof (fastapi_keys_agree url options Hju Hcu Hjo Hco) as Hagree.
  assert (request_key PythonFastapi.results_key
            (default JNull (js_to_json (request_record url options)))
          = JSON_stringify (PythonFastapi.key_object url options)) as Hsame.
  { by injection Hagree. }
  clear Hagree. rename Hsame into Hagree. rewrite Hkey in Hagree.
  exists envelope. unfold cached_result. rewrite <- Hagree. simpl. by rewrite Hlookup.
Qed.

(* ===================================================================== *)
(** ** Where the second evaluation of [python-fastapi] runs the guest code *)
(* ===================================================================== *)

Lemma JSON_stringify_nonempty (v : jsval) (text : string) :
  JSON_stringify v = Some text → text ≠ EmptyString.
Proof. intros Hv%JSON_stringify_head ->. done. Qed.

(** [json.loads(result_json) if result_json else result]: the parsed value,
    or the handle when [JSON.stringify] returned [undefined]; the text is
    never empty. *)
Lemma loads_or_keep_spec (v : jsval) (result : pyval) :
  loads_or_keep v result
  = match js_to_json v with Some parsed => PyData parsed | None => result end.
Proof.
  unfold loads_or_keep.
  destruct (JSON_stringify v) as [text|] eqn:Htext.
  - destruct (js_to_json v) as [parsed|]; [|done].
    destruct (decide _) as [->|]; [|done]. by destruct (JSON_stringify_nonempty v _ Htext).
  - apply stringify_to_json_None in Htext. by rewrite Htext.
Qed.

(** On a code without backslash and carriage return, the lines under
    [Handle JSObject by stringifying via eval] run the guest code once more
    in the same context and hand back the parsed stringification of its
    value, or the handle when there is none. *)
Lemma stringify_via_eval_plain_code {E : Engine} (ctx : MiniRacer E) (code : string)
    (result : pyval) (w : World) :
  (∀ c, c ∈ String.list_ascii_of_string code → c ≠ BACKSLASH ∧ c ≠ CH_CR) →
  PythonFastapi.stringify_via_eval E ctx code result w
  = match guest_eval ctx code w with
    | (Ok (Ok v, ctx'), w') =>
        (Ok (Ok match js_to_json v with Some parsed => PyData parsed | None => result end,
             ctx'), w')
    | (Ok (Raised e, ctx'), w') => (Ok (Raised e, ctx'), w')
    | (Raised e, w') => (Raised e, w')
    end.
Proof.
  intros Hcode. unfold PythonFastapi.stringify_via_eval, eval_template.
  rewrite template_value_escaped_code by done. unfold_M.
  destruct (guest_eval ctx code w) as [[[[v|e] ctx']|e] w']; [|done..].
  by rewrite loads_or_keep_spec.
Qed.

(* ===================================================================== *)
(** ** The second pass and the whole request, unfolded *)
(* ===================================================================== *)

Lemma src_replay_pass_unfold (E : Engine) (request : ExecuteRequest)
    (table : gmap string json) (w : World) :
  SrcMain.replay_pass E request table w =
  match replay_run E SrcMain.interception_names SrcMain.key_object request table with
  | (Ok (v, _), _) => (Ok {| result := to_python E v |}, after_replay request w)
  | (Raised e, _) => (Raised e, after_replay request w)
  end.
Proof.
  unfold SrcMain.replay_pass, SrcMain.create_context_with_http_support, new_context,
    replay_run, after_replay.
  unfold mbind at 1, M_bind at 1. unfold mbind at 1, M_bind at 1.
  unfold emit at 1. unfold mret at 1, M_ret at 1.
  unfold mbind at 1, M_bind at 1. rewrite eval_code_unfold. simpl.
  destruct (run _ _) as [[[v h]|e] i]; simpl; unfold_M; simpl;
    rewrite <- ?app_assoc; reflexivity.
Qed.

Lemma fastapi_replay_pass_unfold (E : Engine) (request : ExecuteRequest)
    (table : gmap string json) (w : World) :
  PythonFastapi.replay_pass E request table w =
  match replay_run E PythonFastapi.interception_names PythonFastapi.key_object
          request table with
  | (Ok (v, h), i) =>
      if is_JSObject (to_python E v) then
        match template_value (escaped_code (code request)) with
        | None => (Raised (Exception "SyntaxError"), after_replay request w)
        | Some src =>
            match run (js_eval E src (inputs request) PythonFastapi.interception_names h) i
            with
            | (Ok (v2, _), _) =>
                (Ok {| result := loads_or_keep v2 (to_python E v) |},
                 after_replay request w ++ [EvGuest src])
            | (Raised e, _) => (Raised e, after_replay request w ++ [EvGuest src])
            end
        end
      else (Ok {| result := to_python E v |}, after_replay request w)
  | (Raised e, _) => (Raised e, after_replay request w)
  end.
Proof.
  unfold PythonFastapi.replay_pass, PythonFastapi.create_context_with_http_support,
    new_context, replay_run, after_replay.
  unfold mbind at 1, M_bind at 1. unfold mbind at 1, M_bind at 1.
  unfold emit at 1. unfold mret at 1, M_ret at 1.
  unfold mbind at 1, M_bind at 1. rewrite eval_code_unfold. simpl.
  destruct (run _ _) as [[[v h]|e] i]; simpl; unfold_M; simpl;
    rewrite <- ?app_assoc; try reflexivity.
  destruct (is_JSObject (to_python E v)); [|reflexivity].
  unfold PythonFastapi.stringify_via_eval, eval_template, guest_eval. unfold_M.
  destruct (template_value _) as [src|]; simpl; [|reflexivity].
  destruct (run _ _) as [[[v2 h2]|e2] i2]; simpl; rewrite <- ?app_assoc; reflexivity.
Qed.

Lemma fetch_tasks_raises_plain (transport : Transport) (reqs : list json) (e : exn) :
  fetch_tasks transport reqs = Raised e → ∃ message, e = Exception message.
Proof.
  induction reqs as [|req rest IH]; simpl; [done|].
  destruct req; simpl; try (intros [= <-]; eauto).
  destruct (assoc "url" kvs); [|intros [= <-]; eauto].
  destruct (fetch_tasks transport rest); [done|]. intros [= <-]. by apply IH.
Qed.

(** The lines after the first pass, for the requests it left. *)
Lemma src_second_phase_unfold (E : Engine) (transport : Transport)
    (request : ExecuteRequest) (reqs : list json) (w : World) :
  Forall has_url reqs →
  src_second_phase E transport request reqs w =
  let w1 := w ++ map EvRequest (omap sent_request reqs) in
  let table := foldl (store SrcMain.results_key) ∅
                 (zip reqs (fetch_all transport w reqs).1) in
  match SrcMain.replay_pass E request table w1 with
  | (Ok response, w2) => (Ok response, w2)
  | (Raised e, w2) => (Raised (execution_failed e), w2)
  end.
Proof.
  intros Hreqs. unfold src_second_phase. unfold_M.
  change (SrcMain.resolve transport reqs w)
    with (resolve_with transport SrcMain.results_key reqs w).
  rewrite resolve_with_ok by done. simpl.
  destruct (SrcMain.replay_pass _ _ _ _) as [[response|e] w2]; reflexivity.
Qed.

Lemma fastapi_second_phase_unfold (E : Engine) (transport : Transport)
    (request : ExecuteRequest) (reqs : list json) (w : World) :
  Forall has_url reqs →
  fastapi_second_phase E transport request reqs w =
  let w1 := w ++ map EvRequest (omap sent_request reqs) in
  let table := foldl (store PythonFastapi.results_key) ∅
                 (zip reqs (fetch_all transport w reqs).1) in
  match PythonFastapi.replay_pass E request table w1 with
  | (Ok response, w2) => (Ok response, w2)
  | (Raised (Exception message), w2) => (Raised (execution_failed (Exception message)), w2)
  | (Raised e, w2) => (Raised e, w2)
  end.
Proof.
  intros Hreqs. unfold fastapi_second_phase. unfold_M.
  change (PythonFastapi.resolve transport reqs w)
    with (resolve_with transport PythonFastapi.results_key reqs w).
  rewrite resolve_with_ok by done. simpl.
  destruct (PythonFastapi.replay_pass _ _ _ _) as [[response|[]] w2]; reflexivity.
Qed.

Lemma second_phase_no_url (E : Engine) (transport : Transport)
    (request : ExecuteRequest) (reqs : list json) (w : World) :
  ¬ Forall has_url reqs →
  ∃ message,
    fetch_tasks transport reqs = Raised (Exception message)
    ∧ src_second_phase E transport request reqs w
      = (Raised (execution_failed (Exception message)), w)
    ∧ fastapi_second_phase E transport request reqs w
      = (Raised (execution_failed (Exception message)), w).
Proof.
  intros Hno. destruct (fetch_tasks_raises transport reqs Hno) as [e He].
  destruct (fetch_tasks_raises_plain transport reqs e He) as [message ->].
  exists message. split; [done|].
  unfold src_second_phase, fastapi_second_phase, SrcMain.resolve, PythonFastapi.resolve.
  unfold_M. by rewrite He.
Qed.

(** The first run of a request ends in a collecting context. *)
Lemma first_run_collect (E : Engine) (names : list string) (request : ExecuteRequest) :
  ∃ r log, first_run E names request = (r, Collect log).
Proof.
  unfold first_run. destruct (run_collect (js_eval E (code request) (inputs request) names
    (fresh_heap E)) []) as (r & more & Hrun). eauto.
Qed.

Lemma second_run_collect (E : Engine) (request : ExecuteRequest) (src : string) (h : Heap E) :
  ∃ r log, second_run E request src h = (r, Collect log).
Proof.
  unfold second_run. destruct (run_collect (js_eval E src (inputs request)
    PythonFastapi.interception_names h) []) as (r & more & Hrun). eauto.
Qed.

Lemma requests_in_app (w1 w2 : World) :
  requests_in (w1 ++ w2) = requests_in w1 ++ requests_in w2.
Proof. apply omap_app. Qed.

Lemma requests_in_requests (rqs : list TransportRequest) :
  requests_in (map EvRequest rqs) = rqs.
Proof. induction rqs as [|rq rqs IH]; [done|]. simpl. unfold requests_in in *. simpl. by rewrite IH. Qed.

Lemma contexts_in_app (w1 w2 : World) :
  contexts_in (w1 ++ w2) = contexts_in w1 + contexts_in w2.
Proof. unfold contexts_in. by rewrite omap_app, length_app. Qed.

Lemma contexts_in_requests (rqs : list TransportRequest) :
  contexts_in (map EvRequest rqs) = 0.
Proof. induction rqs as [|rq rqs IH]; [done|]. exact IH. Qed.

(* ===================================================================== *)
(** ** X1: the errors of a request *)
(* ===================================================================== *)

Lemma replay_run_raises_plain (E : Engine) names key_object request table e i :
  replay_run E names key_object request table = (Raised e, i) →
  ∃ message, e = Exception message.
Proof. apply run_raises_message. Qed.

(** X1.  Whatever the engine and the transport do, a request that fails
    fails in one of two ways, in both services: with status 400 and the
    detail [Invalid code parameter], exactly when the code is empty, the
    world being left as it was; or with status 500 and a detail of the form
    [error: Execution failed, message: ...]. *)
Theorem X1_errors_are_400_or_500 (E : Engine) (transport : Transport)
    (request : ExecuteRequest) (w w' : World) (e : exn) :
  SrcMain.execute_code E transport request w = (Raised e, w')
  ∨ PythonFastapi.execute_code E transport request w = (Raised e, w') →
  (code request = EmptyString ∧ w' = w
   ∧ e = HTTPException 400 (JStr "Invalid code parameter"))
  ∨ (code request ≠ EmptyString
     ∧ ∃ message,
         e = HTTPException 500
               (JObj [("error", JStr "Execution failed"); ("message", JStr message)])).
Proof.
  destruct (decide (code request = EmptyString)) as [Hempty|Hcode].
  { intros Hrun. left. unfold SrcMain.execute_code, PythonFastapi.execute_code in Hrun.
    destruct (decide _); [|done]. unfold raise, invalid_code in Hrun.
    destruct Hrun as [[= <- <-]|[= <- <-]]; done. }
  intros [Hrun|Hrun]; right; (split; [done|]).
  - unfold SrcMain.execute_code in Hrun. destruct (decide _); [done|].
    unfold try_except in Hrun.
    match type of Hrun with
    | match ?x with _ => _ end = _ => destruct x as [[response|e0] w0]
    end; [done|].
    unfold raise, execution_failed in Hrun. injection Hrun as <- <-. eauto.
  - rewrite fastapi_execute_code_unfold, fastapi_trace_pass_unfold in Hrun by done.
    destruct (first_run_collect E PythonFastapi.interception_names request)
      as (r & log & Hfirst).
    rewrite Hfirst in Hrun.
    assert (∀ reqs w0,
      fastapi_second_phase E transport request reqs w0 = (Raised e, w') →
      ∃ message, e = HTTPException 500
        (JObj [("error", JStr "Execution failed"); ("message", JStr message)])) as Hsecond.
    { intros reqs w0 Hphase. destruct (Forall_has_url_dec reqs) as [Hreqs|Hno].
      - rewrite fastapi_second_phase_unfold in Hphase by done. cbv zeta in Hphase.
        rewrite fastapi_replay_pass_unfold in Hphase.
        destruct (replay_run _ _ _ _ _) as [[[v h]|e0] i] eqn:Hreplay.
        + destruct (is_JSObject _); [|done].
          destruct (template_value _); [|injection Hphase as <- <-; unfold execution_failed; eauto].
          destruct (run _ _) as [[[v2 h2]|e2] i2] eqn:Hrun2; [done|].
          apply run_raises_message in Hrun2 as [message ->].
          injection Hphase as <- <-. unfold execution_failed. eauto.
        + apply replay_run_raises_plain in Hreplay as [message ->].
          injection Hphase as <- <-. unfold execution_failed. eauto.
      - destruct (second_phase_no_url E transport request reqs w0 Hno)
          as (message & _ & _ & Hphase').
        rewrite Hphase' in Hphase. injection Hphase as <- <-.
        unfold execution_failed. eauto. }
    destruct r as [[v h]|e0].
    + destruct log as [|call log]; [|by eapply Hsecond].
      destruct (is_JSObject _); [|done].
      destruct (template_value _) as [src|];
        [|injection Hrun as <- <-; unfold execution_failed; eauto].
      destruct (second_run_collect E request src h) as (r2 & log2 & Hrun2).
      rewrite Hrun2 in Hrun. destruct r2 as [[v2 h2]|e2]; [done|].
      apply run_raises_message in Hrun2 as [message ->].
      destruct log2; [|by eapply Hsecond].
      injection Hrun as <- <-. unfold execution_failed. eauto.
    + apply run_raises_message in Hfirst as [message ->].
      destruct log; [|by eapply Hsecond].
      injection Hrun as <- <-. unfold execution_failed. eauto.
Qed.

Lemma X1_witness :
  SrcMain.execute_code Samples.sample_engine Samples.refusing
    {| code := "x("; inputs := JObj [] |} []
  = (Raised (HTTPException 500
               (JObj [("error", JStr "Execution failed");
                      ("message", JStr "SyntaxError: Invalid or unexpected token")])),
     [EvContext; EvGuest "x("])
  ∧ ∃ message,
      HTTPException 500
        (JObj [("error", JStr "Execution failed");
               ("message", JStr "SyntaxError: Invalid or unexpected token")])
      = HTTPException 500
          (JObj [("error", JStr "Execution failed"); ("message", JStr message)]).
Proof.
  split; [reflexivity|].
  destruct (X1_errors_are_400_or_500 Samples.sample_engine Samples.refusing
              {| code := "x("; inputs := JObj [] |} [] [EvContext; EvGuest "x("]
              (HTTPException 500
                 (JObj [("error", JStr "Execution failed");
                        ("message", JStr "SyntaxError: Invalid or unexpected token")])))
    as [(Hempty & _)|(_ & Hmessage)]; [left; reflexivity|discriminate Hempty|exact Hmessage].
Defined.

(* ===================================================================== *)
(** ** X2 and X3: what a request does to the world *)
(* ===================================================================== *)

Lemma src_trace_pass_world (E : Engine) (request : ExecuteRequest) (w : World) :
  (SrcMain.trace_pass E request w).2 = after_first_run request w.
Proof.
  rewrite src_trace_pass_unfold.
  destruct (first_run _ _ _) as [[[v h]|e] [[|call log]|ko table]]; reflexivity.
Qed.

Lemma fastapi_trace_pass_world (E : Engine) (request : ExecuteRequest) (w : World) :
  (PythonFastapi.trace_pass E request w).2 = after_first_run request w
  ∨ ∃ src, (PythonFastapi.trace_pass E request w).2 = after_first_run request w ++ [EvGuest src].
Proof.
  rewrite fastapi_trace_pass_unfold.
  destruct (first_run _ _ _) as [[[v h]|e] [[|call log]|ko table]]; try (by left).
  destruct (is_JSObject _); [|by left].
  destruct (template_value _) as [src|]; [|by left].
  right. exists src.
  destruct (second_run _ _ _ _) as [[[v2 h2]|e2] [[|call2 log2]|ko2 table2]]; reflexivity.
Qed.

Lemma src_replay_pass_world (E : Engine) (request : ExecuteRequest)
    (table : gmap string json) (w : World) :
  (SrcMain.replay_pass E request table w).2 = after_replay request w.
Proof.
  rewrite src_replay_pass_unfold.
  destruct (replay_run _ _ _ _ _) as [[[v h]|e] i]; reflexivity.
Qed.

Lemma fastapi_replay_pass_world (E : Engine) (request : ExecuteRequest)
    (table : gmap string json) (w : World) :
  (PythonFastapi.replay_pass E request table w).2 = after_replay request w
  ∨ ∃ src, (PythonFastapi.replay_pass E request table w).2
           = after_replay request w ++ [EvGuest src].
Proof.
  rewrite fastapi_replay_pass_unfold.
  destruct (replay_run _ _ _ _ _) as [[[v h]|e] i]; try (by left).
  destruct (is_JSObject _); [|by left].
  destruct (template_value _) as [src|]; [|by left].
  right. exists src. destruct (run _ _) as [[[v2 h2]|e2] i2]; reflexivity.
Qed.

Lemma passes_send_nothing (E : Engine) (request : ExecuteRequest)
    (table : gmap string json) (w : World) :
  requests_in (SrcMain.trace_pass E request w).2 = requests_in w
  ∧ requests_in (PythonFastapi.trace_pass E request w).2 = requests_in w
  ∧ requests_in (SrcMain.replay_pass E request table w).2 = requests_in w
  ∧ requests_in (PythonFastapi.replay_pass E request table w).2 = requests_in w.
Proof.
  rewrite src_trace_pass_world, src_replay_pass_world.
  split; [|split; [|split]].
  - unfold after_first_run. rewrite requests_in_app. apply app_nil_r.
  - destruct (fastapi_trace_pass_world E request w) as [->|[src ->]];
      unfold after_first_run; rewrite !requests_in_app; simpl; by rewrite ?app_nil_r.
  - unfold after_replay. rewrite requests_in_app. apply app_nil_r.
  - destruct (fastapi_replay_pass_world E request table w) as [->|[src ->]];
      unfold after_replay; rewrite !requests_in_app; simpl; by rewrite ?app_nil_r.
Qed.

Lemma passes_create_one_context (E : Engine) (request : ExecuteRequest)
    (table : gmap string json) (w : World) :
  contexts_in (SrcMain.trace_pass E request w).2 = contexts_in w + 1
  ∧ contexts_in (PythonFastapi.trace_pass E request w).2 = contexts_in w + 1
  ∧ contexts_in (SrcMain.replay_pass E request table w).2 = contexts_in w + 1
  ∧ contexts_in (PythonFastapi.replay_pass E request table w).2 = contexts_in w + 1.
Proof.
  rewrite src_trace_pass_world, src_replay_pass_world.
  split; [|split; [|split]].
  - unfold after_first_run. by rewrite contexts_in_app.
  - destruct (fastapi_trace_pass_world E request w) as [->|[src ->]];
      unfold after_first_run; rewrite !contexts_in_app; unfold contexts_in; simpl; lia.
  - unfold after_replay. by rewrite contexts_in_app.
  - destruct (fastapi_replay_pass_world E request table w) as [->|[src ->]];
      unfold after_replay; rewrite !contexts_in_app; unfold contexts_in; simpl; lia.
Qed.

(** X2.  The transport is called in the resolution phase only.  For a
    request with code, in both services: when the first pass leaves traced
    requests that all have their [url], the requests sent by the whole
    request are those of the traced requests whose options are a mapping, in
    trace order; in every other case (the first pass answers or fails, or a
    traced request lacks its [url]) nothing is sent. *)
Theorem X2_requests_sent (E : Engine) (transport : Transport)
    (request : ExecuteRequest) (w : World) :
  code request ≠ EmptyString →
  (∀ reqs, (SrcMain.trace_pass E request w).1 = Ok (inr reqs) → Forall has_url reqs →
     requests_in (SrcMain.execute_code E transport request w).2
     = requests_in w ++ omap sent_request reqs)
  ∧ ((∀ reqs, (SrcMain.trace_pass E request w).1 = Ok (inr reqs) → ¬ Forall has_url reqs) →
     requests_in (SrcMain.execute_code E transport request w).2 = requests_in w)
  ∧ (∀ reqs, (PythonFastapi.trace_pass E request w).1 = Ok (inr reqs) → Forall has_url reqs →
     requests_in (PythonFastapi.execute_code E transport request w).2
     = requests_in w ++ omap sent_request reqs)
  ∧ ((∀ reqs, (PythonFastapi.trace_pass E request w).1 = Ok (inr reqs) →
              ¬ Forall has_url reqs) →
     requests_in (PythonFastapi.execute_code E transport request w).2 = requests_in w).
Proof.
  intros Hcode.
  rewrite src_execute_code_unfold, fastapi_execute_code_unfold by done.
  destruct (passes_send_nothing E request ∅ w) as (Hsrc & Hfast & _).
  split; [|split; [|split]].
  - intros reqs Htrace Hreqs.
    destruct (SrcMain.trace_pass E request w) as [r w1]. simpl in *. subst r.
    rewrite src_second_phase_unfold by done. cbv zeta.
    match goal with |- context [SrcMain.replay_pass E request ?t ?w0] =>
      destruct (passes_send_nothing E request t w0) as (_ & _ & Hreplay & _);
      destruct (SrcMain.replay_pass E request t w0) as [[response|e] w2] end;
      simpl in *; by rewrite Hreplay, requests_in_app, requests_in_requests, Hsrc.
  - intros Hno.
    destruct (SrcMain.trace_pass E request w) as [[[response|reqs]|e] w1]; simpl in *;
      try done.
    destruct (second_phase_no_url E transport request reqs w1 (Hno reqs eq_refl))
      as (message & _ & -> & _). done.
  - intros reqs Htrace Hreqs.
    destruct (PythonFastapi.trace_pass E request w) as [r w1]. simpl in *. subst r.
    rewrite fastapi_second_phase_unfold by done. cbv zeta.
    match goal with |- context [PythonFastapi.replay_pass E request ?t ?w0] =>
      destruct (passes_send_nothing E request t w0) as (_ & _ & _ & Hreplay);
      destruct (PythonFastapi.replay_pass E request t w0) as [[response|[]] w2] end;
      simpl in *; by rewrite Hreplay, requests_in_app, requests_in_requests, Hfast.
  - intros Hno.
    destruct (PythonFastapi.trace_pass E request w) as [[[response|reqs]|[]] w1];
      simpl in *; try done.
    destruct (second_phase_no_url E transport request reqs w1 (Hno reqs eq_refl))
      as (message & _ & _ & ->). done.
Qed.

(** X3.  A request creates at most two contexts, in both services: none
    when the code is empty; otherwise one for the first pass and, exactly
    when the first pass leaves traced requests that all have their [url],
    one more for the second pass. *)
Theorem X3_contexts_created (E : Engine) (transport : Transport)
    (request : ExecuteRequest) (w : World) :
  (code request = EmptyString →
     contexts_in (SrcMain.execute_code E transport request w).2 = contexts_in w
     ∧ contexts_in (PythonFastapi.execute_code E transport request w).2 = contexts_in w)
  ∧ (code request ≠ EmptyString →
     (∀ reqs, (SrcMain.trace_pass E request w).1 = Ok (inr reqs) → Forall has_url reqs →
        contexts_in (SrcMain.execute_code E transport request w).2 = contexts_in w + 2)
     ∧ ((∀ reqs, (SrcMain.trace_pass E request w).1 = Ok (inr reqs) →
                 ¬ Forall has_url reqs) →
        contexts_in (SrcMain.execute_code E transport request w).2 = contexts_in w + 1)
     ∧ (∀ reqs, (PythonFastapi.trace_pass E request w).1 = Ok (inr reqs) →
                Forall has_url reqs →
        contexts_in (PythonFastapi.execute_code E transport request w).2
        = contexts_in w + 2)
     ∧ ((∀ reqs, (PythonFastapi.trace_pass E request w).1 = Ok (inr reqs) →
                 ¬ Forall has_url reqs) →
        contexts_in (PythonFastapi.execute_code E transport request w).2
        = contexts_in w + 1)).
Proof.
  split.
  { intros Hempty. unfold SrcMain.execute_code, PythonFastapi.execute_code.
    by destruct (decide _). }
  intros Hcode.
  rewrite src_execute_code_unfold, fastapi_execute_code_unfold by done.
  destruct (passes_create_one_context E request ∅ w) as (Hsrc & Hfast & _).
  split; [|split; [|split]].
  - intros reqs Htrace Hreqs.
    destruct (SrcMain.trace_pass E request w) as [r w1]. simpl in *. subst r.
    rewrite src_second_phase_unfold by done. cbv zeta.
    match goal with |- context [SrcMain.replay_pass E request ?t ?w0] =>
      destruct (passes_create_one_context E request t w0) as (_ & _ & Hreplay & _);
      destruct (SrcMain.replay_pass E request t w0) as [[response|e] w2] end;
      simpl in *; rewrite Hreplay, contexts_in_app, contexts_in_requests, Hsrc; lia.
  - intros Hno.
    destruct (SrcMain.trace_pass E request w) as [[[response|reqs]|e] w1]; simpl in *;
      try done.
    destruct (second_phase_no_url E transport request reqs w1 (Hno reqs eq_refl))
      as (message & _ & -> & _). done.
  - intros reqs Htrace Hreqs.
    destruct (PythonFastapi.trace_pass E request w) as [r w1]. simpl in *. subst r.
    rewrite fastapi_second_phase_unfold by done. cbv zeta.
    match goal with |- context [PythonFastapi.replay_pass E request ?t ?w0] =>
      destruct (passes_create_one_context E request t w0) as (_ & _ & _ & Hreplay);
      destruct (PythonFastapi.replay_pass E request t w0) as [[response|[]] w2] end;
      simpl in *; rewrite Hreplay, contexts_in_app, contexts_in_requests, Hfast; lia.
  - intros Hno.
    destruct (PythonFastapi.trace_pass E request w) as [[[response|reqs]|[]] w1];
      simpl in *; try done.
    destruct (second_phase_no_url E transport request reqs w1 (Hno reqs eq_refl))
      as (message & _ & _ & ->). done.
Qed.

Lemma X2_witness :
  let request := {| code := Samples.same_call_twice; inputs := JObj [] |} in
  let traced := JObj [("url", JStr "http://a"); ("options", JObj [])] in
  let sent := {| rq_method := JStr "GET"; rq_url := JStr "http://a";
                 rq_headers := JObj []; rq_content := JNull |} in
  code request ≠ EmptyString
  ∧ requests_in
      (PythonFastapi.execute_code Samples.sample_engine Samples.counting request []).2
    = [sent; sent].
Proof.
  intros request traced sent. split; [done|].
  destruct (X2_requests_sent Samples.sample_engine Samples.counting request [])
    as (_ & _ & H & _); [done|].
  apply (H [traced; traced]); [reflexivity|].
  repeat constructor; by exists (JStr "http://a").
Defined.

Lemma X3_witness :
  let request := {| code := Samples.same_call_twice; inputs := JObj [] |} in
  let traced := JObj [("url", JStr "http://a"); ("options", JObj [])] in
  code request ≠ EmptyString
  ∧ contexts_in
      (SrcMain.execute_code Samples.sample_engine Samples.counting request []).2 = 2
  ∧ contexts_in
      (PythonFastapi.execute_code Samples.sample_engine Samples.counting request []).2 = 2.
Proof.
  intros request traced. split; [done|].
  destruct (X3_contexts_created Samples.sample_engine Samples.counting request [])
    as (_ & H).
  destruct H as (Hsrc & _ & Hfast & _); [done|].
  split.
  - apply (Hsrc [traced; traced]); [reflexivity|].
    repeat constructor; by exists (JStr "http://a").
  - apply (Hfast [traced; traced]); [reflexivity|].
    repeat constructor; by exists (JStr "http://a").
Defined.

(* ===================================================================== *)
(** ** X4: a call without a target *)
(* ===================================================================== *)

Lemma run_collect_records {R} (s : Script R) (log log' : list jsval) (r : outcome R) :
  run s (Collect log) = (r, Collect log') → Forall is_record log → Forall is_record log'.
Proof.
  revert log. induction s as [r0|message|url options k IH]; intros log; simpl.
  - by intros [= _ <-].
  - by intros [= _ <-].
  - intros Hrun Hlog. apply (IH _ _ Hrun). apply Forall_app. split; [done|].
    constructor; [|constructor]. by exists url, options.
Qed.

(** What [json.loads] reads back for a traced request: a [dict] that has
    the [url] exactly when [JSON.stringify] prints it. *)
Lemma record_read_back (url options : jsval) :
  ∃ kvs, default JNull (js_to_json (request_record url options)) = JObj kvs
         ∧ assoc "url" kvs = js_to_json url.
Proof.
  unfold request_record. simpl.
  destruct (js_to_json url) as [ju|], (js_to_json (js_or options (JSObj []))) as [jo|];
    simpl; eauto.
Qed.

Lemma fetch_tasks_KeyError (transport : Transport) (reqs : list json) :
  Forall (λ req, ∃ kvs, req = JObj kvs) reqs → ¬ Forall has_url reqs →
  fetch_tasks transport reqs = Raised (Exception "'url'").
Proof.
  induction 1 as [|req rest [kvs ->] _ IH]; intros Hno.
  - destruct Hno. constructor.
  - simpl. destruct (assoc "url" kvs) as [url|] eqn:Hurl; [|done].
    rewrite IH; [done|]. intros Hrest. apply Hno. constructor; [|done].
    exists url. simpl. by rewrite Hurl.
Qed.

Lemma traced_without_url (log : list jsval) (url options : jsval) :
  Forall is_record log → request_record url options ∈ log → js_to_json url = None →
  Forall (λ req, ∃ kvs, req = JObj kvs) (http_requests_of log)
  ∧ ¬ Forall has_url (http_requests_of log).
Proof.
  intros Hlog Hin Hurl. split.
  - unfold http_requests_of. apply Forall_fmap. eapply Forall_impl; [exact Hlog|].
    intros x (u & o & ->). simpl. destruct (record_read_back u o) as (kvs & Hkvs & _).
    eauto.
  - intros Hall. rewrite Forall_forall in Hall.
    destruct (Hall (default JNull (js_to_json (request_record url options))))
      as [ju Hju].
    { unfold http_requests_of.
      by apply (list_elem_of_fmap_2 (λ x, default JNull (js_to_json x))). }
    destruct (record_read_back url options) as (kvs & Hkvs & Hassoc).
    rewrite Hkvs in Hju. simpl in Hju. by rewrite Hassoc, Hurl in Hju.
Qed.



(* ===================================================================== *)
(** ** X5: the second pass of [src/main.py] *)
(* ===================================================================== *)

(** A run against a table in which no call finds anything ends like a run
    in a collecting context. *)
Lemma run_all_undefined {R} (s : Script R) (key_object : jsval → jsval → jsval)
    (table : gmap string json) (log : list jsval) :
  (∀ url options, cached_result table (key_object url options) = JSUndefined) →
  (run s (Cached key_object table)).1 = (run s (Collect log)).1.
Proof.
  intros Hmiss. revert log. induction s as [r|message|url options k IH]; intros log;
    simpl; [done..|].
  rewrite Hmiss. apply IH.
Qed.



(* ===================================================================== *)
(** ** X6 and X7: scripts whose calls do not depend on the answers *)
(* ===================================================================== *)

Lemma run_ended {R} (s : Script R) (i : Interception) :
  ended s → run s i = (outcome_of s, i).
Proof. by destruct s. Qed.

Lemma run_straight_collect {R} (calls : list (jsval * jsval))
    (finish : list jsval → Script R) (log : list jsval) :
  (∀ answers, ended (finish answers)) →
  run (straight calls finish) (Collect log)
  = (outcome_of (finish (map (λ _, JSUndefined) calls)),
     Collect (log ++ map (λ call, request_record call.1 call.2) calls)).
Proof.
  revert finish log. induction calls as [|[url options] calls IH]; intros finish log Hend.
  - simpl. rewrite app_nil_r. by apply run_ended.
  - simpl. rewrite IH by (intros answers; apply Hend). by rewrite <- app_assoc.
Qed.

Lemma run_straight_cached {R} (calls : list (jsval * jsval))
    (finish : list jsval → Script R) (key_object : jsval → jsval → jsval)
    (table : gmap string json) :
  (∀ answers, ended (finish answers)) →
  run (straight calls finish) (Cached key_object table)
  = (outcome_of (finish (answers_of key_object table calls)), Cached key_object table).
Proof.
  revert finish. induction calls as [|[url options] calls IH]; intros finish Hend.
  - simpl. by apply run_ended.
  - simpl. by rewrite IH by (intros answers; apply Hend).
Qed.

Lemma traced_cons (call : jsval * jsval) (calls : list (jsval * jsval)) :
  traced (call :: calls)
  = default JNull (js_to_json (request_record call.1 call.2)) :: traced calls.
Proof. reflexivity. Qed.

(** What a straight script does in [python-fastapi], up to the result of
    the second evaluation. *)
Lemma fastapi_straight (E : Engine) (transport : Transport) (request : ExecuteRequest)
    (w : World) (calls : list (jsval * jsval))
    (finish : list jsval → Script (jsval * Heap E)) :
  code request ≠ EmptyString →
  js_eval E (code request) (inputs request) PythonFastapi.interception_names (fresh_heap E)
    = straight calls finish →
  (∀ answers, ended (finish answers)) →
  calls ≠ [] →
  Forall has_url (traced calls) →
  PythonFastapi.execute_code E transport request w
  = match PythonFastapi.replay_pass E request
            (table_of transport PythonFastapi.results_key (after_first_run request w) calls)
            (after_first_run request w ++ map EvRequest (omap sent_request (traced calls)))
    with
    | (Ok response, w2) => (Ok response, w2)
    | (Raised (Exception message), w2) =>
        (Raised (execution_failed (Exception message)), w2)
    | (Raised e, w2) => (Raised e, w2)
    end
  ∧ replay_run E PythonFastapi.interception_names PythonFastapi.key_object request
      (table_of transport PythonFastapi.results_key (after_first_run request w) calls)
    = (outcome_of (finish (answers_of PythonFastapi.key_object
                     (table_of transport PythonFastapi.results_key
                        (after_first_run request w) calls) calls)),
       Cached PythonFastapi.key_object
         (table_of transport PythonFastapi.results_key (after_first_run request w) calls)).
Proof.
  intros Hcode Hscript Hend Hcalls Hreqs. split.
  - rewrite fastapi_execute_code_unfold, fastapi_trace_pass_unfold by done.
    unfold first_run. rewrite Hscript, run_straight_collect by done. simpl app.
    destruct calls as [|call calls]; [done|]. rewrite map_cons.
    assert (fastapi_second_phase E transport request (traced (call :: calls))
              (after_first_run request w)
            = match PythonFastapi.replay_pass E request
                (table_of transport PythonFastapi.results_key (after_first_run request w)
                   (call :: calls))
                (after_first_run request w
                   ++ map EvRequest (omap sent_request (traced (call :: calls))))
              with
              | (Ok response, w2) => (Ok response, w2)
              | (Raised (Exception message), w2) =>
                  (Raised (execution_failed (Exception message)), w2)
              | (Raised e, w2) => (Raised e, w2)
              end) as Hphase.
    { by rewrite fastapi_second_phase_unfold. }
    destruct (outcome_of _) as [[v h]|e]; exact Hphase.
  - unfold replay_run. rewrite Hscript. by apply run_straight_cached.
Qed.

Lemma prints_alike_key (call : jsval * jsval) :
  prints_alike call →
  ∃ key, request_key PythonFastapi.results_key
           (default JNull (js_to_json (request_record call.1 call.2))) = Some key
         ∧ JSON_stringify (PythonFastapi.key_object call.1 call.2) = Some key.
Proof.
  intros (Hju & Hcu & Hjo & Hco).
  pose proof (fastapi_keys_agree call.1 call.2 Hju Hcu Hjo Hco) as Hagree.
  assert (request_key PythonFastapi.results_key
            (default JNull (js_to_json (request_record call.1 call.2)))
          = JSON_stringify (PythonFastapi.key_object call.1 call.2)) as Hsame.
  { by injection Hagree. }
  rewrite Hsame. unfold PythonFastapi.key_object. rewrite stringify_obj. eauto.
Qed.

Lemma prints_alike_has_url (calls : list (jsval * jsval)) :
  Forall prints_alike calls → Forall has_url (traced calls).
Proof.
  induction 1 as [|call calls Hcall _ IH]; [constructor|].
  rewrite traced_cons. constructor; [|exact IH].
  destruct (prints_alike_key call Hcall) as (key & Hkey & _).
  unfold request_key, key_dict in Hkey.
  destruct (py_getitem _ "url") as [url|] eqn:Hurl; [|done]. by exists url.
Qed.

(** In [python-fastapi], every call that prints alike is answered in the
    second pass with one of the envelopes that the resolution phase
    produced. *)
Lemma answers_are_envelopes (transport : Transport) (w : World)
    (calls : list (jsval * jsval)) :
  Forall prints_alike calls →
  Forall (λ answer, ∃ envelope,
            envelope ∈ (fetch_all transport w (traced calls)).1
            ∧ answer = json_to_js envelope)
         (answers_of PythonFastapi.key_object
            (table_of transport PythonFastapi.results_key w calls) calls).
Proof.
  intros Hcalls. unfold answers_of. apply Forall_fmap, Forall_forall.
  intros call Hin. simpl.
  assert (prints_alike call) as Hcall by (by eapply Forall_forall in Hcalls).
  destruct (prints_alike_key call Hcall) as (key & Hkey & Hjs).
  assert (is_Some (table_of transport PythonFastapi.results_key w calls !! key))
    as [envelope Hlookup].
  { unfold table_of. apply store_fold_is_Some. right.
    apply list_elem_of_lookup in Hin as [i Hi].
    assert (traced calls !! i
            = Some (default JNull (js_to_json (request_record call.1 call.2)))) as Hreq.
    { unfold traced, http_requests_of. by rewrite !list_lookup_fmap, Hi. }
    assert (i < length (fetch_all transport w (traced calls)).1) as Hlt.
    { rewrite fetch_all_length. by eapply lookup_lt_Some. }
    apply lookup_lt_is_Some in Hlt as [envelope Henv].
    exists (default JNull (js_to_json (request_record call.1 call.2)), envelope).
    split; [|done]. apply list_elem_of_lookup. exists i. by apply lookup_zip_Some. }
  exists envelope. split.
  - unfold table_of in Hlookup.
    apply store_fold_lookup_inv in Hlookup as [Hempty|(j & req & Hj & _)].
    { by rewrite lookup_empty in Hempty. }
    apply lookup_zip_Some in Hj as [_ Henv]. by eapply list_elem_of_lookup_2.
  - unfold cached_result. rewrite Hjs. simpl. by rewrite Hlookup.
Qed.



Lemma fetch_one_sent (transport : Transport) (w : World) (req : json)
    (rq : TransportRequest) :
  sent_request req = Some rq →
  fetch_one transport w req = (envelope_of (transport w rq), w ++ [EvRequest rq]).
Proof.
  unfold sent_request, fetch_one. destruct (fetch_args req) as [[url options]|]; [|done].
  simpl. by intros ->.
Qed.



(* ===================================================================== *)
(** ** Targets outside ASCII in [python-fastapi] *)
(* ===================================================================== *)

Lemma list_ascii_app (s1 s2 : string) :
  String.list_ascii_of_string (s1 +:+ s2)
  = String.list_ascii_of_string s1 ++ String.list_ascii_of_string s2.
Proof.
  induction s1 as [|c s1 IH]; [done|]. rewrite string_app_cons. simpl. by rewrite IH.
Qed.

Lemma plain_string_app (s1 s2 : string) :
  plain_string (s1 +:+ s2) ↔ plain_string s1 ∧ plain_string s2.
Proof. unfold plain_string. rewrite list_ascii_app. apply Forall_app. Qed.

Global Instance plain_char_dec (c : ascii) : Decision (plain_char c).
Proof. unfold plain_char. apply _. Defined.

Global Instance plain_string_dec (s : string) : Decision (plain_string s).
Proof. unfold plain_string. apply _. Defined.

Lemma plain_py_escape_char (c : ascii) : plain_string (py_escape_char c).
Proof.
  destruct c as [[] [] [] [] [] [] [] []];
    apply (bool_decide_unpack _); vm_compute; exact I.
Qed.

Lemma plain_py_encode (s : string) : plain_string (py_encode_basestring_ascii s).
Proof.
  unfold py_encode_basestring_ascii.
  apply plain_string_app; split; [by apply (bool_decide_unpack _)|].
  apply plain_string_app; split; [|by apply (bool_decide_unpack _)].
  induction s as [|c s IH]; [constructor|].
  simpl. apply plain_string_app. split; [apply plain_py_escape_char|exact IH].
Qed.

Lemma plain_pretty_N_go (x : N) (s : string) :
  plain_string s → plain_string (pretty_N_go x s).
Proof.
  revert s. induction (N.lt_wf_0 x) as [x _ IH]; intros s Hs.
  assert (x = 0 ∨ 0 < x)%N as [->|Hpos] by lia.
  - by rewrite pretty_N_go_0.
  - rewrite pretty_N_go_step by done. apply IH; [by apply N.div_lt|].
    constructor; [|exact Hs].
    unfold pretty_N_char. repeat case_match; by vm_compute.
Qed.

Lemma plain_pretty_Z (n : Z) : plain_string (pretty n).
Proof.
  assert (∀ x : N, plain_string (pretty x)) as HN.
  { intros x. unfold pretty, pretty_N. destruct (decide _); [by apply (bool_decide_unpack _)|].
    apply plain_pretty_N_go. constructor. }
  destruct n as [|p|p]; unfold pretty, pretty_Z; simpl.
  - apply (HN 0%N).
  - apply (HN (N.pos p)).
  - apply plain_string_app. split; [by apply (bool_decide_unpack _)|apply (HN (N.pos p))].
Qed.

Lemma plain_join (sep : string) (parts : list string) :
  plain_string sep → Forall plain_string parts → plain_string (join sep parts).
Proof.
  intros Hsep. induction 1 as [|p parts Hp Hparts IH]; [constructor|].
  destruct parts as [|q parts]; [exact Hp|].
  change (join sep (p :: q :: parts)) with (p +:+ sep +:+ join sep (q :: parts)).
  apply plain_string_app; split; [exact Hp|]. by apply plain_string_app.
Qed.

(** [json.dumps] with [ensure_ascii] left at its default prints characters
    of [' '..'~'] only (and [DEL] never), whatever the strings in its
    argument. *)
Lemma plain_json_dumps (sort_keys : bool) (item_separator key_separator : string)
    (j : json) :
  plain_string item_separator → plain_string key_separator →
  plain_string (json_dumps_with sort_keys item_separator key_separator j).
Proof.
  intros Hitem Hkey.
  induction j as [|b|n|s|xs IH|kvs IH] using json_ind.
  - by apply (bool_decide_unpack _).
  - destruct b; by apply (bool_decide_unpack _).
  - apply plain_pretty_Z.
  - apply plain_py_encode.
  - change (plain_string ("[" +:+ join item_separator
              (map (json_dumps_with sort_keys item_separator key_separator) xs) +:+ "]")).
    apply plain_string_app; split; [by apply (bool_decide_unpack _)|].
    apply plain_string_app; split; [|by apply (bool_decide_unpack _)].
    apply plain_join; [done|]. by apply Forall_fmap.
  - change (plain_string ("{" +:+ join item_separator
              (map (dumps_item key_separator)
                 (if sort_keys
                  then sorted_items
                         (map (λ kv, (kv.1, json_dumps_with sort_keys item_separator
                                               key_separator kv.2)) kvs)
                  else map (λ kv, (kv.1, json_dumps_with sort_keys item_separator
                                            key_separator kv.2)) kvs)) +:+ "}")).
    apply plain_string_app; split; [by apply (bool_decide_unpack _)|].
    apply plain_string_app; split; [|by apply (bool_decide_unpack _)].
    apply plain_join; [done|]. apply Forall_fmap.
    assert (Forall (λ kv : string * string, plain_string kv.2)
              (map (λ kv, (kv.1, json_dumps_with sort_keys item_separator
                                   key_separator kv.2)) kvs)) as Hrendered.
    { apply Forall_fmap. eapply Forall_impl; [exact IH|]. by intros [k v]. }
    assert (∀ items : list (string * string),
              Forall (λ kv, plain_string kv.2) items →
              Forall (plain_string ∘ dumps_item key_separator) items) as Hitems.
    { intros items Hall. eapply Forall_impl; [exact Hall|]. intros [k text] Htext. simpl.
      unfold dumps_item. simpl.
      apply plain_string_app; split; [apply plain_py_encode|].
      by apply plain_string_app. }
    apply Hitems. destruct sort_keys; [|exact Hrendered].
    unfold sorted_items. by rewrite merge_sort_Permutation.
Qed.

Lemma js_escape_char_raw (c : ascii) : ¬ plain_char c → js_escape_char c = str1 c.
Proof.
  intros Hc.
  destruct c as [[] [] [] [] [] [] [] []]; try reflexivity;
    exfalso; apply Hc; by vm_compute.
Qed.

Lemma occurs_app (c : ascii) (s1 s2 : string) :
  occurs c (s1 +:+ s2) ↔ occurs c s1 ∨ occurs c s2.
Proof. unfold occurs. rewrite list_ascii_app. apply elem_of_app. Qed.

(** QuoteJSONString copies a character outside [' '..'~']. *)
Lemma occurs_QuoteJSONString (c : ascii) (s : string) :
  occurs c s → ¬ plain_char c → occurs c (QuoteJSONString s).
Proof.
  intros Hin Hc. unfold QuoteJSONString.
  apply occurs_app; right. apply occurs_app; left.
  induction s as [|c' s IH]; [by apply elem_of_nil in Hin|].
  simpl. apply occurs_app.
  apply elem_of_cons in Hin as [<-|Hin].
  - left. rewrite js_escape_char_raw by done. by left.
  - right. by apply IH.
Qed.

Lemma occurs_join (c : ascii) (sep p : string) (parts : list string) :
  p ∈ parts → occurs c p → occurs c (join sep parts).
Proof.
  intros Hin Hp. induction parts as [|q parts IH]; [by apply elem_of_nil in Hin|].
  destruct parts as [|q' parts].
  - apply elem_of_cons in Hin as [->|Hin]; [exact Hp|by apply elem_of_nil in Hin].
  - change (join sep (q :: q' :: parts)) with (q +:+ sep +:+ join sep (q' :: parts)).
    apply occurs_app. apply elem_of_cons in Hin as [<-|Hin]; [by left|].
    right. apply occurs_app. right. by apply IH.
Qed.

Lemma occurs_not_plain (c : ascii) (s : string) :
  occurs c s → ¬ plain_char c → ¬ plain_string s.
Proof.
  intros Hin Hc Hs. apply Hc. unfold plain_string in Hs.
  by eapply Forall_forall in Hs.
Qed.

(** The key that the script side of [python-fastapi] computes for a target
    with a character outside [' '..'~'] holds that character. *)
Lemma fastapi_js_key_raw (c : ascii) (u : string) (options : jsval) :
  occurs c u → ¬ plain_char c →
  ∃ text, JSON_stringify (PythonFastapi.key_object (JSStr u) options) = Some text
          ∧ ¬ plain_string text.
Proof.
  intros Hin Hc. unfold PythonFastapi.key_object. rewrite stringify_obj.
  eexists; split; [reflexivity|].
  apply (occurs_not_plain c); [|done].
  apply occurs_app; right. apply occurs_app; left.
  apply (occurs_join c _ (QuoteJSONString "url" +:+ ":" +:+ QuoteJSONString u)).
  - simpl map.
    destruct (JSON_stringify (js_or options (JSObj []))) as [text|];
      [rewrite (omap_cons_Some _ _ (QuoteJSONString "options" +:+ ":" +:+ text)) by done;
       right|]; by left.
  - apply occurs_app; right. apply occurs_app; right.
    by apply occurs_QuoteJSONString.
Qed.

(** The keys of a table of [python-fastapi] are made of [' '..'~']. *)
Lemma fastapi_table_keys_plain (transport : Transport) (w : World)
    (calls : list (jsval * jsval)) (key : string) :
  is_Some (table_of transport PythonFastapi.results_key w calls !! key) →
  plain_string key.
Proof.
  intros [envelope Hlookup]. unfold table_of in Hlookup.
  apply store_fold_lookup_inv in Hlookup as [Hempty|(j & req & _ & Hkey)].
  { by rewrite lookup_empty in Hempty. }
  unfold request_key in Hkey. destruct (key_dict req) as [d|]; [|done].
  injection Hkey as <-. unfold PythonFastapi.results_key, json_dumps_sorted_compact.
  apply plain_json_dumps; by apply (bool_decide_unpack _).
Qed.



(* ===================================================================== *)
(** ** Object results after calls in [python-fastapi] *)
(* ===================================================================== *)



(* ===================================================================== *)
(** ** A call that depends on the answer of another *)
(* ===================================================================== *)

Lemma fastapi_after_trace (E : Engine) (transport : Transport) (request : ExecuteRequest)
    (w : World) (r : outcome (jsval * Heap E)) (calls : list (jsval * jsval)) :
  code request ≠ EmptyString →
  first_run E PythonFastapi.interception_names request
    = (r, Collect (map (λ call, request_record call.1 call.2) calls)) →
  calls ≠ [] →
  Forall has_url (traced calls) →
  PythonFastapi.execute_code E transport request w
  = match PythonFastapi.replay_pass E request
            (table_of transport PythonFastapi.results_key (after_first_run request w) calls)
            (after_first_run request w ++ map EvRequest (omap sent_request (traced calls)))
    with
    | (Ok response, w2) => (Ok response, w2)
    | (Raised (Exception message), w2) =>
        (Raised (execution_failed (Exception message)), w2)
    | (Raised e, w2) => (Raised e, w2)
    end.
Proof.
  intros Hcode Hrun Hcalls Hreqs.
  rewrite fastapi_execute_code_unfold, fastapi_trace_pass_unfold, Hrun by done.
  destruct calls as [|call calls]; [done|]. rewrite map_cons.
  assert (fastapi_second_phase E transport request (traced (call :: calls))
            (after_first_run request w)
          = match PythonFastapi.replay_pass E request
              (table_of transport PythonFastapi.results_key (after_first_run request w)
                 (call :: calls))
              (after_first_run request w
                 ++ map EvRequest (omap sent_request (traced (call :: calls))))
            with
            | (Ok response, w2) => (Ok response, w2)
            | (Raised (Exception message), w2) =>
                (Raised (execution_failed (Exception message)), w2)
            | (Raised e, w2) => (Raised e, w2)
            end) as Hphase.
  { by rewrite fastapi_second_phase_unfold. }
  destruct r as [[v h]|e]; exact Hphase.
Qed.


